(** * XMLHttpRequestPromise: a fluent, promise-returning request builder

    A shallow embedding of the two variants of the class
    [XMLHttpRequestPromise]:

    - [Later]   is [src/XMLHttpRequestPromise.js] (open/closed flag, explicit
                [openRequest], [sendRequest]);
    - [Earlier] is [src/unnamed/part_000] (no flag, [build] opens the handle
                inside the send path).

    The class owns four scalar fields and delegates every I/O operation to a
    host-supplied [XMLHttpRequest].  The host is taken as a parameter (class
    [Host]); methods are state transformers on the builder that either return
    or throw, and closures handed to the host (event listeners, [onload] and
    [onerror] handlers) are functions from what they read to what they do. *)

From Stdlib Require Import String Ascii List Bool NArith ZArith Arith Lia.
From Stdlib Require Uint63 PrimFloat SpecFloat FloatOps.
Import ListNotations.
Open Scope string_scope.

(** ** JavaScript values the class reads and produces *)

(** The value of a property such as [evt.target.status]: a number, or
    [undefined] when the object has no such property (an
    [XMLHttpRequestUpload] has no [status]). *)
Inductive JsVal : Type :=
| JsUndefined
| JsNumber (n : N).

(** [v === k] for a number literal [k]. *)
Definition js_strict_eq (v : JsVal) (k : N) : bool :=
  match v with
  | JsNumber n => N.eqb n k
  | JsUndefined => false
  end.

(** [v >= k] and [v < k] for a number literal [k]; [undefined] converts to
    [NaN], and every comparison with [NaN] is false. *)
Definition js_ge (v : JsVal) (k : N) : bool :=
  match v with
  | JsNumber n => N.leb k n
  | JsUndefined => false
  end.

Definition js_lt (v : JsVal) (k : N) : bool :=
  match v with
  | JsNumber n => N.ltb n k
  | JsUndefined => false
  end.

(** A number as the progress computation meets it: a non-negative
    integer-valued double, [Infinity] or [NaN]. *)
Inductive JsNum : Type :=
| Finite (n : N)
| PosInfinity
| NaN.

(** A JavaScript number is an IEEE 754 binary64 value, and every arithmetic
    operation returns the double nearest to the exact result, ties going to
    the even significand.  [round_half_even num den] is the integer nearest
    to [num / den] under that rule. *)
Definition round_half_even (num den : N) : N :=
  let q := (num / den)%N in
  let r := (num mod den)%N in
  match N.compare (2 * r) den with
  | Lt => q
  | Gt => (q + 1)%N
  | Eq => if N.even q then q else (q + 1)%N
  end.

(** The integer part of the double nearest to [a / b], for [b] not zero.
    A quotient below one half rounds to at most one half.  Otherwise
    [a * 2^53 / b] is at least [2^52], the position of its leading bit gives
    the exponent [e] of the unit in the last place, the 53-bit significand
    [m] is [(a * 2^53 / b) / 2^e] rounded half-even, and the double is
    [m * 2^e / 2^53]. *)
Definition floor_quotient_double (a b : N) : N :=
  let scaled := (a * 2 ^ 53)%N in
  let q := (scaled / b)%N in
  if (q <? 2 ^ 52)%N then 0%N
  else
    let e := (N.log2 q - 52)%N in
    let m := round_half_even scaled (b * 2 ^ e) in
    (m * 2 ^ e / 2 ^ 53)%N.

(** The number an integer becomes when JavaScript reads it, as for the
    [unsigned long long] attributes [loaded] and [total] of a
    [ProgressEvent]: the nearest double, [Infinity] from [2^1024] on. *)
Definition js_number (n : N) : JsNum :=
  let r := floor_quotient_double n 1 in
  if (r <? 2 ^ 1024)%N then Finite r else PosInfinity.

(** [x * y] on these numbers: the exact product of two doubles, rounded. *)
Definition js_mul (x y : JsNum) : JsNum :=
  match x, y with
  | NaN, _ | _, NaN => NaN
  | Finite a, Finite b => js_number (a * b)
  | PosInfinity, Finite b => if N.eqb b 0 then NaN else PosInfinity
  | Finite a, PosInfinity => if N.eqb a 0 then NaN else PosInfinity
  | PosInfinity, PosInfinity => PosInfinity
  end.

(** [Math.floor(x / y)] on these numbers: the quotient of two doubles is
    rounded to a double, then floored.  Division by zero gives [Infinity],
    and [0 / 0] and [Infinity / Infinity] give [NaN]. *)
Definition js_floor_div (x y : JsNum) : JsNum :=
  match x, y with
  | NaN, _ | _, NaN => NaN
  | PosInfinity, PosInfinity => NaN
  | PosInfinity, Finite _ => PosInfinity
  | Finite _, PosInfinity => Finite 0
  | Finite a, Finite b =>
      if N.eqb b 0 then (if N.eqb a 0 then NaN else PosInfinity)
      else Finite (floor_quotient_double a b)
  end.

(** Below [2^53] every integer is a double. *)
Definition double_exact (n : N) : Prop := (n < 2 ^ 53)%N.

(** The expression of the progress wrappers,
    [Math.floor((loaded * 100) / total)], on the numbers above. *)
Definition js_percent (loaded total : N) : JsNum :=
  js_floor_div (js_mul (js_number loaded) (Finite 100)) (js_number total).

(** The same expression evaluated with the binary64 arithmetic of the
    kernel's primitive floats, for operands below [2^63]; it serves to
    check the definitions above on sample operands. *)
Definition binary64_of_N (n : N) : PrimFloat.float :=
  PrimFloat.of_uint63 (Uint63.of_Z (Z.of_N n)).

Definition binary64_floor (x : PrimFloat.float) : JsNum :=
  match FloatOps.Prim2SF x with
  | SpecFloat.S754_zero _ => Finite 0
  | SpecFloat.S754_finite false m e => Finite (Z.to_N (Z.shiftl (Zpos m) e))
  | SpecFloat.S754_infinity false => PosInfinity
  | _ => NaN
  end.

Definition binary64_percent (loaded total : N) : JsNum :=
  binary64_floor
    (PrimFloat.div
       (PrimFloat.mul (binary64_of_N loaded) (binary64_of_N 100))
       (binary64_of_N total)).

(** What a thrown value is. *)
Inductive Exn : Type :=
| Error (message : string)
| TypeError (message : string)
| HostException (name : string).

(** ** Events, callbacks and listeners *)

(** The fields of an event that the listener wrappers read. *)
Record Event : Type := mkEvent {
  target_status : JsVal;       (* evt.target.status *)
  lengthComputable : bool;     (* evt.lengthComputable *)
  loaded : N;                  (* evt.loaded *)
  total : N                    (* evt.total *)
}.

(** A function object supplied by the caller, known by its identity. *)
Inductive Callback : Type :=
| Fn (id : nat).

(** The [optionalCallback] parameter: [Function|null] in the later variant,
    an optional [Function] (so possibly [undefined]) in the earlier one. *)
Inductive OptionalCallback : Type :=
| IsFunction (f : Callback)
| IsNull
| IsUndefined.

Inductive Arg : Type :=
| ANumber (x : JsNum)
| AEvent (evt : Event).

(** What one invocation of a listener wrapper does: it calls one of the
    caller's functions with some arguments, or it throws. *)
Inductive ListenerOutcome : Type :=
| Calls (f : Callback) (args : list Arg)
| Raises (e : Exn).

(** [optionalCallback(args)]: calling a value that is not a function throws
    a [TypeError]. *)
Definition js_call (c : OptionalCallback) (args : list Arg) : ListenerOutcome :=
  match c with
  | IsFunction f => Calls f args
  | IsNull => Raises (TypeError "optionalCallback is not a function")
  | IsUndefined => Raises (TypeError "optionalCallback is not a function")
  end.

Definition Listener : Type := Event -> ListenerOutcome.

(** The two event targets of one exchange. *)
Inductive Target : Type :=
| MainHandle      (* this.xhr *)
| UploadHandle.   (* this.upload, that is this._xhr.upload *)

(** ** The promise returned by the send operation *)

(** The fields of the handle read at completion time. *)
Record XhrView : Type := mkView {
  xhr_status : N;
  xhr_statusText : string;
  xhr_response : string
}.

(** The object literal [{status, statusText}] passed to [reject]. *)
Record Rejection : Type := mkRejection {
  status : JsVal;
  statusText : string
}.

Inductive Reason : Type :=
| StatusReason (r : Rejection)
| ExnReason (e : Exn).

Inductive PromiseState : Type :=
| Pending
| Fulfilled (value : string)
| Rejected (reason : Reason).

(** What one invocation of an [onload] or [onerror] handler does. *)
Inductive HandlerEffect : Type :=
| CallResolve (value : string)
| CallReject (r : Rejection)
| HandlerRaises (e : Exn).

Definition Handler : Type := XhrView -> HandlerEffect.

(** [resolve] and [reject] settle a pending promise and do nothing to a
    settled one; an exception thrown by a handler never reaches the promise. *)
Definition settle (eff : HandlerEffect) (p : PromiseState) : PromiseState :=
  match p, eff with
  | Pending, CallResolve v => Fulfilled v
  | Pending, CallReject r => Rejected (StatusReason r)
  | _, _ => p
  end.

(** The host ends a send by invoking [onload] or [onerror], with the handle
    showing some status, status text and response. *)
Inductive Terminal : Type :=
| LoadCompleted (view : XhrView)
| TransportError (view : XhrView).

(** A terminal event runs the handler in its slot, and [resolve] or
    [reject] acts on the promise the handler closes over. *)
Definition deliver (onload onerror : Handler) (t : Terminal) (p : PromiseState)
  : PromiseState :=
  match t with
  | LoadCompleted view => settle (onload view) p
  | TransportError view => settle (onerror view) p
  end.

Fixpoint deliver_all (onload onerror : Handler) (ts : list Terminal) (p : PromiseState)
  : PromiseState :=
  match ts with
  | [] => p
  | t :: rest => deliver_all onload onerror rest (deliver onload onerror t p)
  end.

(** An exception thrown by the executor of [new Promise] rejects the
    promise, unless it is settled already. *)
Definition executor_throws (e : Exn) (p : PromiseState) : PromiseState :=
  match p with
  | Pending => Rejected (ExnReason e)
  | _ => p
  end.

(** The request body handed to [send]. *)
Inductive Body : Type :=
| StringBody (s : string)
| ObjectBody (json : string)
| FormDataBody (entries : list (string * string)).

(** ** Completions of a method call *)

(** A call on a builder in state [St] returns a value or throws; either way
    the builder is left in some state. *)
Inductive Completion (St A : Type) : Type :=
| Normal (a : A) (s : St)
| Abrupt (e : Exn) (s : St).

Arguments Normal {St A} a s.
Arguments Abrupt {St A} e s.

Definition final_state {St A : Type} (c : Completion St A) : St :=
  match c with
  | Normal _ s => s
  | Abrupt _ s => s
  end.

(** The value of [return this]. *)
Inductive ThisRef : Type :=
| this.

(** ** The host environment *)

(** What the class consumes from the runtime: the string method
    [toUpperCase] and the primitives of an [XMLHttpRequest].  [open],
    [setRequestHeader] and [send] may throw.  [xhr_send_delivers] lists the
    terminal events the host delivers before [send] returns: none for an
    asynchronous request, whose events come later from the event loop; a
    synchronous request completes inside [send]. *)
Class Host : Type := {
  Handle : Type;
  XMLHttpRequest_new : Handle;
  toUpperCase : string -> string;
  xhr_open : string -> string -> bool -> Handle -> option Exn * Handle;
  xhr_setRequestHeader : string -> string -> Handle -> option Exn * Handle;
  xhr_addEventListener : Target -> string -> Listener -> option bool -> Handle -> Handle;
  xhr_set_onload : Handler -> Handle -> Handle;
  xhr_set_onerror : Handler -> Handle -> Handle;
  xhr_send : Body -> Handle -> option Exn * Handle;
  xhr_send_delivers : Body -> Handle -> list Terminal
}.

(** ** The later variant: [src/XMLHttpRequestPromise.js] *)

Module Later.

Section WithHost.

Context {host : Host}.

Record Builder : Type := mkBuilder {
  _xhr : Handle;
  _method : string;
  _url : string;
  _async : bool;
  _isOpen : bool
}.

(** [constructor()] *)
Definition constructor : Builder :=
  {| _xhr := XMLHttpRequest_new;
     _method := "GET";
     _url := "/";
     _async := true;
     _isOpen := false |}.

Definition with_xhr (b : Builder) (h : Handle) : Builder :=
  {| _xhr := h; _method := _method b; _url := _url b;
     _async := _async b; _isOpen := _isOpen b |}.

Definition with_method (b : Builder) (m : string) : Builder :=
  {| _xhr := _xhr b; _method := m; _url := _url b;
     _async := _async b; _isOpen := _isOpen b |}.

Definition with_url (b : Builder) (u : string) : Builder :=
  {| _xhr := _xhr b; _method := _method b; _url := u;
     _async := _async b; _isOpen := _isOpen b |}.

Definition with_async (b : Builder) (a : bool) : Builder :=
  {| _xhr := _xhr b; _method := _method b; _url := _url b;
     _async := a; _isOpen := _isOpen b |}.

Definition with_isOpen (b : Builder) (o : bool) : Builder :=
  {| _xhr := _xhr b; _method := _method b; _url := _url b;
     _async := _async b; _isOpen := o |}.

(** The three fields [openRequest] passes to the host. *)
Definition configuration (b : Builder) : string * string * bool :=
  (_method b, _url b, _async b).

(** The message of the error thrown by the four guarded methods. *)
Definition already_open_message (b : Builder) : string :=
  "XMLHttpRequestPromise: XMLHttpRequest is Open, with HTTP Verb "
    ++ _method b ++ " going to URL " ++ _url b.

(** [setMethod(method)] *)
Definition setMethod (method : string) (b : Builder) : Completion Builder ThisRef :=
  if _isOpen b then Abrupt (Error (already_open_message b)) b
  else
    let method := toUpperCase method in
    if (method =? "GET") || (method =? "HEAD") || (method =? "POST")
       || (method =? "PUT") || (method =? "DELETE") || (method =? "CONNECT")
       || (method =? "OPTIONS") || (method =? "TRACE") || (method =? "PATCH")
    then Normal this (with_method b method)
    else Abrupt (Error "Invalid HTTP Verb.") b.

(** [setUrl(url)] *)
Definition setUrl (url : string) (b : Builder) : Completion Builder ThisRef :=
  if _isOpen b then Abrupt (Error (already_open_message b)) b
  else Normal this (with_url b url).

(** [setAsync(async)] *)
Definition setAsync (async : bool) (b : Builder) : Completion Builder ThisRef :=
  if _isOpen b then Abrupt (Error (already_open_message b)) b
  else Normal this (with_async b async).

(** [openRequest()]: the flag is set only after the host's [open] returned. *)
Definition openRequest (b : Builder) : Completion Builder ThisRef :=
  if _isOpen b then Abrupt (Error (already_open_message b)) b
  else
    match xhr_open (_method b) (_url b) (_async b) (_xhr b) with
    | (Some e, h) => Abrupt e (with_xhr b h)
    | (None, h) => Normal this (with_isOpen (with_xhr b h) true)
    end.

(** [setXhrHeader(headerName, headerValue)] *)
Definition setXhrHeader (headerName headerValue : string) (b : Builder)
  : Completion Builder ThisRef :=
  match xhr_setRequestHeader headerName headerValue (_xhr b) with
  | (Some e, h) => Abrupt e (with_xhr b h)
  | (None, h) => Normal this (with_xhr b h)
  end.

(** The [switch] of [setEventListener]: the wrapper assigned to [_function],
    or the error thrown. *)
Definition setEventListener_function
  (event : string) (callback : Callback) (optionalCallback : OptionalCallback)
  : Exn + Listener :=
  if event =? "abort" then
    inr (fun evt => Calls callback [AEvent evt])
  else if event =? "error" then
    inr (fun evt => Calls callback [AEvent evt])
  else if event =? "load" then
    inr (fun evt =>
           if js_strict_eq (target_status evt) 200
           then Calls callback [AEvent evt]
           else js_call optionalCallback [AEvent evt])
  else if event =? "loadend" then
    inl (Error ("XMLHttpRequestPromise: Event function " ++ event ++ " not implemented."))
  else if event =? "loadstart" then
    inl (Error ("XMLHttpRequestPromise: Event function " ++ event ++ " not implemented."))
  else if event =? "progress" then
    inr (fun evt =>
           if lengthComputable evt then
             let progress :=
               js_floor_div (js_mul (js_number (loaded evt)) (Finite 100))
                 (js_number (total evt)) in
             Calls callback [ANumber progress; AEvent evt]
           else Calls callback [ANumber (Finite 0); AEvent evt])
  else if event =? "timeout" then
    inl (Error ("XMLHttpRequestPromise: Event function " ++ event ++ " not implemented."))
  else if event =? "readystatechange" then
    inl (Error ("XMLHttpRequestPromise: Event function " ++ event ++ " not implemented."))
  else
    inl (Error ("XMLHttpRequestPromise: Invalid listener event property " ++ event ++ ".")).

(** [setEventListener(event, callback, optionalCallback, options)] *)
Definition setEventListener
  (event : string) (callback : Callback) (optionalCallback : OptionalCallback)
  (options : option bool) (b : Builder) : Completion Builder ThisRef :=
  match setEventListener_function event callback optionalCallback with
  | inl e => Abrupt e b
  | inr _function =>
      Normal this
        (with_xhr b (xhr_addEventListener MainHandle event _function options (_xhr b)))
  end.

(** The [switch] of [setUploadEventListener], a second copy in the source. *)
Definition setUploadEventListener_function
  (event : string) (callback : Callback) (optionalCallback : OptionalCallback)
  : Exn + Listener :=
  if event =? "abort" then
    inr (fun evt => Calls callback [AEvent evt])
  else if event =? "error" then
    inr (fun evt => Calls callback [AEvent evt])
  else if event =? "load" then
    inr (fun evt =>
           if js_strict_eq (target_status evt) 200
           then Calls callback [AEvent evt]
           else js_call optionalCallback [AEvent evt])
  else if event =? "loadend" then
    inl (Error ("XMLHttpRequestPromise: Event function " ++ event ++ " not implemented."))
  else if event =? "loadstart" then
    inl (Error ("XMLHttpRequestPromise: Event function " ++ event ++ " not implemented."))
  else if event =? "progress" then
    inr (fun evt =>
           if lengthComputable evt then
             let progress :=
               js_floor_div (js_mul (js_number (loaded evt)) (Finite 100))
                 (js_number (total evt)) in
             Calls callback [ANumber progress; AEvent evt]
           else Calls callback [ANumber (Finite 0); AEvent evt])
  else if event =? "timeout" then
    inl (Error ("XMLHttpRequestPromise: Event function " ++ event ++ " not implemented."))
  else if event =? "readystatechange" then
    inl (Error ("XMLHttpRequestPromise: Event function " ++ event ++ " not implemented."))
  else
    inl (Error ("XMLHttpRequestPromise: Invalid listener event property " ++ event ++ ".")).

(** [setUploadEventListener(event, callback, optionalCallback, options)] *)
Definition setUploadEventListener
  (event : string) (callback : Callback) (optionalCallback : OptionalCallback)
  (options : option bool) (b : Builder) : Completion Builder ThisRef :=
  match setUploadEventListener_function event callback optionalCallback with
  | inl e => Abrupt e b
  | inr _function =>
      Normal this
        (with_xhr b (xhr_addEventListener UploadHandle event _function options (_xhr b)))
  end.

(** The handler assigned to [request.xhr.onload]; it reads the handle's
    fields when the host invokes it. *)
Definition onload : Handler :=
  fun xhr =>
    if N.leb 200 (xhr_status xhr) && N.ltb (xhr_status xhr) 300
    then CallResolve (xhr_response xhr)
    else CallReject {| status := JsNumber (xhr_status xhr);
                       statusText := xhr_statusText xhr |}.

(** The handler assigned to [request.xhr.onerror]. *)
Definition onerror : Handler :=
  fun xhr =>
    CallReject {| status := JsNumber (xhr_status xhr);
                  statusText := xhr_statusText xhr |}.

(** [makeRequest(request, requestBody)]: the executor of [new Promise] runs
    at once; it installs both handlers and calls [send].  The terminal
    events the host delivers before [send] returns (a synchronous request)
    run the handlers just installed, so the promise may be settled when
    [makeRequest] returns.  An exception thrown by the executor rejects the
    promise if it is still pending. *)
Definition makeRequest (request : Builder) (requestBody : Body)
  : PromiseState * Builder :=
  let h1 := xhr_set_onload onload (_xhr request) in
  let h2 := xhr_set_onerror onerror h1 in
  let promise := deliver_all onload onerror (xhr_send_delivers requestBody h2) Pending in
  match xhr_send requestBody h2 with
  | (Some e, h3) => (executor_throws e promise, with_xhr request h3)
  | (None, h3) => (promise, with_xhr request h3)
  end.

(** [sendRequest(body)] *)
Definition sendRequest (body : Body) (b : Builder) : Completion Builder PromiseState :=
  if negb (_isOpen b) then
    Abrupt (Error "XMLHttpRequestPromise: XMLHttpRequest is not open.") b
  else
    let (promise, b') := makeRequest b body in
    Normal promise b'.

(** One call on the builder, as a caller that goes on after an exception
    sees it. *)
Inductive Op : Type :=
| OpSetMethod (method : string)
| OpSetUrl (url : string)
| OpSetAsync (async : bool)
| OpOpenRequest
| OpSetXhrHeader (headerName headerValue : string)
| OpSetEventListener (event : string) (callback : Callback)
    (optionalCallback : OptionalCallback) (options : option bool)
| OpSetUploadEventListener (event : string) (callback : Callback)
    (optionalCallback : OptionalCallback) (options : option bool)
| OpSendRequest (body : Body).

Definition exec (op : Op) (b : Builder) : Builder :=
  match op with
  | OpSetMethod m => final_state (setMethod m b)
  | OpSetUrl u => final_state (setUrl u b)
  | OpSetAsync a => final_state (setAsync a b)
  | OpOpenRequest => final_state (openRequest b)
  | OpSetXhrHeader n v => final_state (setXhrHeader n v b)
  | OpSetEventListener e c o opts => final_state (setEventListener e c o opts b)
  | OpSetUploadEventListener e c o opts =>
      final_state (setUploadEventListener e c o opts b)
  | OpSendRequest body => final_state (sendRequest body b)
  end.

Fixpoint run (ops : list Op) (b : Builder) : Builder :=
  match ops with
  | [] => b
  | op :: rest => run rest (exec op b)
  end.

(** Whether a call flips [_isOpen] from false to true. *)
Definition sets_isOpen (op : Op) (b : Builder) : bool :=
  negb (_isOpen b) && _isOpen (exec op b).

(** How many calls of a sequence flip the flag. *)
Fixpoint count_sets_isOpen (ops : list Op) (b : Builder) : nat :=
  match ops with
  | [] => 0
  | op :: rest =>
      (if sets_isOpen op b then 1 else 0) + count_sets_isOpen rest (exec op b)
  end.

End WithHost.

Arguments Builder : clear implicits.

End Later.

(** ** The earlier variant: [src/unnamed/part_000] *)

Module Earlier.

(** The [this] binding of a function body.  A function called without a
    receiver, as in [makeRequest(this, body)], runs with [this] undefined
    (a class body is strict code); an arrow function uses the [this] of the
    function around it. *)
Inductive ThisValue : Type :=
| ThisUndefined
| ThisObject (status_property : JsVal).

(** [this.status]: reading a property of [undefined] throws. *)
Definition this_status (this_ : ThisValue) : Exn + JsVal :=
  match this_ with
  | ThisUndefined =>
      inl (TypeError "Cannot read properties of undefined (reading 'status')")
  | ThisObject v => inr v
  end.

Section WithHost.

Context {host : Host}.

Record Builder : Type := mkBuilder {
  _xhr : Handle;
  _method : string;
  _url : string
}.

(** [constructor()] *)
Definition constructor : Builder :=
  {| _xhr := XMLHttpRequest_new; _method := "GET"; _url := "/" |}.

Definition with_xhr (b : Builder) (h : Handle) : Builder :=
  {| _xhr := h; _method := _method b; _url := _url b |}.

Definition with_method (b : Builder) (m : string) : Builder :=
  {| _xhr := _xhr b; _method := m; _url := _url b |}.

Definition with_url (b : Builder) (u : string) : Builder :=
  {| _xhr := _xhr b; _method := _method b; _url := u |}.

(** [setMethod(method)] *)
Definition setMethod (method : string) (b : Builder) : Completion Builder ThisRef :=
  let method := toUpperCase method in
  if (method =? "GET") || (method =? "HEAD") || (method =? "POST")
     || (method =? "PUT") || (method =? "DELETE") || (method =? "CONNECT")
     || (method =? "OPTIONS") || (method =? "TRACE") || (method =? "PATCH")
  then Normal this (with_method b method)
  else Abrupt (Error "Invalid HTTP Verb.") b.

(** [setUrl(url)] *)
Definition setUrl (url : string) (b : Builder) : Completion Builder ThisRef :=
  Normal this (with_url b url).

(** [setXhrHeader(headerName, headerValue)] *)
Definition setXhrHeader (headerName headerValue : string) (b : Builder)
  : Completion Builder ThisRef :=
  match xhr_setRequestHeader headerName headerValue (_xhr b) with
  | (Some e, h) => Abrupt e (with_xhr b h)
  | (None, h) => Normal this (with_xhr b h)
  end.

(** The [switch] of [setEventListener]. *)
Definition setEventListener_function
  (event : string) (callback : Callback) (optionalCallback : OptionalCallback)
  : Exn + Listener :=
  if event =? "abort" then
    inr (fun evt => Calls callback [AEvent evt])
  else if event =? "error" then
    inr (fun evt => Calls callback [AEvent evt])
  else if event =? "load" then
    inr (fun evt =>
           if js_strict_eq (target_status evt) 200
           then Calls callback [AEvent evt]
           else js_call optionalCallback [AEvent evt])
  else if event =? "loadend" then
    inl (Error "Event function not implemented.")
  else if event =? "loadstart" then
    inl (Error "Event function not implemented.")
  else if event =? "progress" then
    inr (fun evt =>
           if lengthComputable evt then
             let progress :=
               js_floor_div (js_mul (js_number (loaded evt)) (Finite 100))
                 (js_number (total evt)) in
             Calls callback [ANumber progress; AEvent evt]
           else Calls callback [ANumber (Finite 0); AEvent evt])
  else if event =? "timeout" then
    inl (Error "Event function not implemented.")
  else if event =? "readystatechange" then
    inl (Error "Event function not implemented.")
  else
    inl (Error "Invalid listener event property.").

(** [setEventListener(event, callback, optionalCallback, options)] *)
Definition setEventListener
  (event : string) (callback : Callback) (optionalCallback : OptionalCallback)
  (options : option bool) (b : Builder) : Completion Builder ThisRef :=
  match setEventListener_function event callback optionalCallback with
  | inl e => Abrupt e b
  | inr _function =>
      Normal this
        (with_xhr b (xhr_addEventListener MainHandle event _function options (_xhr b)))
  end.

(** The [switch] of [setUploadEventListener]. *)
Definition setUploadEventListener_function
  (event : string) (callback : Callback) (optionalCallback : OptionalCallback)
  : Exn + Listener :=
  if event =? "abort" then
    inr (fun evt => Calls callback [AEvent evt])
  else if event =? "error" then
    inr (fun evt => Calls callback [AEvent evt])
  else if event =? "load" then
    inr (fun evt =>
           if js_strict_eq (target_status evt) 200
           then Calls callback [AEvent evt]
           else js_call optionalCallback [AEvent evt])
  else if event =? "loadend" then
    inl (Error "Event function not implemented.")
  else if event =? "loadstart" then
    inl (Error "Event function not implemented.")
  else if event =? "progress" then
    inr (fun evt =>
           if lengthComputable evt then
             let progress :=
               js_floor_div (js_mul (js_number (loaded evt)) (Finite 100))
                 (js_number (total evt)) in
             Calls callback [ANumber progress; AEvent evt]
           else Calls callback [ANumber (Finite 0); AEvent evt])
  else if event =? "timeout" then
    inl (Error "Event function not implemented.")
  else if event =? "readystatechange" then
    inl (Error "Event function not implemented.")
  else
    inl (Error "Invalid listener event property.").

(** [setUploadEventListener(event, callback, optionalCallback, options)] *)
Definition setUploadEventListener
  (event : string) (callback : Callback) (optionalCallback : OptionalCallback)
  (options : option bool) (b : Builder) : Completion Builder ThisRef :=
  match setUploadEventListener_function event callback optionalCallback with
  | inl e => Abrupt e b
  | inr _function =>
      Normal this
        (with_xhr b (xhr_addEventListener UploadHandle event _function options (_xhr b)))
  end.

(** The arrow function assigned to [request.xhr.onload] inside
    [makeRequest]; its [this] is the [this] of [makeRequest].  The condition
    reads [this.status] before anything else. *)
Definition onload (this_ : ThisValue) : Handler :=
  fun xhr =>
    match this_status this_ with
    | inl e => HandlerRaises e
    | inr s =>
        if js_ge s 200 && js_lt s 300
        then CallResolve (xhr_response xhr)
        else CallReject {| status := s; statusText := xhr_statusText xhr |}
    end.

(** The arrow function assigned to [request.xhr.onerror]: the object
    literal is evaluated, [this.status] first, before [reject] is called. *)
Definition onerror (this_ : ThisValue) : Handler :=
  fun xhr =>
    match this_status this_ with
    | inl e => HandlerRaises e
    | inr s => CallReject {| status := s; statusText := xhr_statusText xhr |}
    end.

(** [makeRequest(request, requestBody)], run with the given [this]: the
    executor opens the handle (always asynchronous), installs the handlers
    and sends.  An exception thrown by the executor rejects the promise. *)
Definition makeRequest (this_ : ThisValue) (request : Builder) (requestBody : Body)
  : PromiseState * Builder :=
  match xhr_open (_method request) (_url request) true (_xhr request) with
  | (Some e, h0) => (Rejected (ExnReason e), with_xhr request h0)
  | (None, h0) =>
      let h1 := xhr_set_onload (onload this_) h0 in
      let h2 := xhr_set_onerror (onerror this_) h1 in
      match xhr_send requestBody h2 with
      | (Some e, h3) => (Rejected (ExnReason e), with_xhr request h3)
      | (None, h3) => (Pending, with_xhr request h3)
      end
  end.

(** [build(body)]: [makeRequest(this, body)] is a call without a receiver. *)
Definition build (body : Body) (b : Builder) : Completion Builder PromiseState :=
  let (promise, b') := makeRequest ThisUndefined b body in
  Normal promise b'.

End WithHost.

Arguments Builder : clear implicits.

End Earlier.

(** ** A recording host

    An [XMLHttpRequest] that records what was asked of it and lets a test
    deliver events; a synchronous request it completes itself, with a fixed
    response.  [open] refuses the methods a browser forbids, and
    [setRequestHeader] and [send] refuse a handle that is not open, as the
    XMLHttpRequest standard has it; [toUpperCase] is the ASCII one, which
    agrees with JavaScript's on ASCII strings. *)

Module Recorder.

Record Xhr : Type := mkXhr {
  opened : option (string * string * bool);
  headers : list (string * string);
  listeners : list (Target * string * Listener * option bool);
  onload_slot : option Handler;
  onerror_slot : option Handler;
  sent : list Body
}.

Definition fresh : Xhr :=
  {| opened := None; headers := []; listeners := [];
     onload_slot := None; onerror_slot := None; sent := [] |}.

Definition ascii_upper (c : ascii) : ascii :=
  let n := nat_of_ascii c in
  if Nat.leb 97 n && Nat.leb n 122 then ascii_of_nat (n - 32) else c.

Fixpoint ascii_toUpperCase (s : string) : string :=
  match s with
  | EmptyString => EmptyString
  | String c rest => String (ascii_upper c) (ascii_toUpperCase rest)
  end.

Definition forbidden_method (m : string) : bool :=
  let m := ascii_toUpperCase m in
  (m =? "CONNECT") || (m =? "TRACE") || (m =? "TRACK").

Definition open (m u : string) (a : bool) (x : Xhr) : option Exn * Xhr :=
  if forbidden_method m then (Some (HostException "SecurityError"), x)
  else
    (None,
     {| opened := Some (m, u, a); headers := []; listeners := listeners x;
        onload_slot := onload_slot x; onerror_slot := onerror_slot x;
        sent := [] |}).

Definition setRequestHeader (n v : string) (x : Xhr) : option Exn * Xhr :=
  match opened x, sent x with
  | Some _, [] =>
      (None,
       {| opened := opened x; headers := headers x ++ [(n, v)];
          listeners := listeners x; onload_slot := onload_slot x;
          onerror_slot := onerror_slot x; sent := sent x |})
  | _, _ => (Some (HostException "InvalidStateError"), x)
  end.

Definition addEventListener
  (t : Target) (event : string) (l : Listener) (options : option bool) (x : Xhr) : Xhr :=
  {| opened := opened x; headers := headers x;
     listeners := listeners x ++ [(t, event, l, options)];
     onload_slot := onload_slot x; onerror_slot := onerror_slot x;
     sent := sent x |}.

Definition set_onload (h : Handler) (x : Xhr) : Xhr :=
  {| opened := opened x; headers := headers x; listeners := listeners x;
     onload_slot := Some h; onerror_slot := onerror_slot x; sent := sent x |}.

Definition set_onerror (h : Handler) (x : Xhr) : Xhr :=
  {| opened := opened x; headers := headers x; listeners := listeners x;
     onload_slot := onload_slot x; onerror_slot := Some h; sent := sent x |}.

Definition send (body : Body) (x : Xhr) : option Exn * Xhr :=
  match opened x, sent x with
  | Some _, [] =>
      (None,
       {| opened := opened x; headers := headers x; listeners := listeners x;
          onload_slot := onload_slot x; onerror_slot := onerror_slot x;
          sent := [body] |})
  | _, _ => (Some (HostException "InvalidStateError"), x)
  end.

(** The response the recording host's transport gives to a synchronous
    request. *)
Definition sync_response : XhrView :=
  {| xhr_status := 200; xhr_statusText := "OK"; xhr_response := "sync" |}.

(** A synchronous request completes inside [send], which fires [load]
    before it returns; an asynchronous one delivers nothing until a test
    does. *)
Definition send_delivers (body : Body) (x : Xhr) : list Terminal :=
  match opened x, sent x with
  | Some (_, _, false), [] => [LoadCompleted sync_response]
  | _, _ => []
  end.

Definition host : Host :=
  {| Handle := Xhr;
     XMLHttpRequest_new := fresh;
     toUpperCase := ascii_toUpperCase;
     xhr_open := open;
     xhr_setRequestHeader := setRequestHeader;
     xhr_addEventListener := addEventListener;
     xhr_set_onload := set_onload;
     xhr_set_onerror := set_onerror;
     xhr_send := send;
     xhr_send_delivers := send_delivers |}.

Definition target_eqb (a b : Target) : bool :=
  match a, b with
  | MainHandle, MainHandle => true
  | UploadHandle, UploadHandle => true
  | _, _ => false
  end.

(** Delivering an event to a target: what each listener registered there
    for that event name does, in registration order. *)
Definition dispatch (t : Target) (event : string) (evt : Event) (x : Xhr)
  : list ListenerOutcome :=
  map (fun r => match r with (_, _, l, _) => l evt end)
      (filter (fun r => match r with
                        | (t', event', _, _) => target_eqb t t' && (event =? event')
                        end)
              (listeners x)).

(** How many listeners the two targets hold. *)
Definition listener_count (x : Xhr) : nat := length (listeners x).

(** The terminal events of a send: the host invokes the handler in the
    [onload] (or [onerror]) slot while the handle shows [view]; the promise
    [p] is the one that handler closes over. *)
Definition complete_load (view : XhrView) (x : Xhr) (p : PromiseState) : PromiseState :=
  match onload_slot x with
  | Some h => settle (h view) p
  | None => p
  end.

Definition complete_error (view : XhrView) (x : Xhr) (p : PromiseState) : PromiseState :=
  match onerror_slot x with
  | Some h => settle (h view) p
  | None => p
  end.

(** What the handler in a slot does when the host invokes it. *)
Definition load_effect (view : XhrView) (x : Xhr) : option HandlerEffect :=
  option_map (fun h => h view) (onload_slot x).

Definition error_effect (view : XhrView) (x : Xhr) : option HandlerEffect :=
  option_map (fun h => h view) (onerror_slot x).

(** The promise a call returned, when it returned. *)
Definition promise_of {St : Type} (c : Completion St PromiseState) : option PromiseState :=
  match c with
  | Normal p _ => Some p
  | Abrupt _ _ => None
  end.

End Recorder.

(** ** The vocabulary of the specification *)

(** The nine verbs [setMethod] accepts. *)
Definition http_verbs : list string :=
  ["GET"; "HEAD"; "POST"; "PUT"; "DELETE"; "CONNECT"; "OPTIONS"; "TRACE"; "PATCH"].

(** The event names for which a wrapper is built. *)
Definition supported_events : list string := ["abort"; "error"; "load"; "progress"].

(** The event names whose registration is refused as not implemented. *)
Definition unimplemented_events : list string :=
  ["loadend"; "loadstart"; "timeout"; "readystatechange"].

(** The event names the listener operations map. *)
Definition mapped_events : list string :=
  ["abort"; "error"; "load"; "progress";
   "loadend"; "loadstart"; "timeout"; "readystatechange"].

Definition not_implemented_message (event : string) : string :=
  "XMLHttpRequestPromise: Event function " ++ event ++ " not implemented.".

Definition invalid_event_message (event : string) : string :=
  "XMLHttpRequestPromise: Invalid listener event property " ++ event ++ ".".

(** A terminal status the send promise counts as success. *)
Definition is_2xx (s : N) : Prop := (200 <= s < 300)%N.

(** A fluent chain [x.f(..).g(..)]: the next call runs on the builder the
    previous one returned, and an exception ends the chain. *)
Definition chain {St A B : Type}
  (c : Completion St A) (f : St -> Completion St B) : Completion St B :=
  match c with
  | Normal _ s => f s
  | Abrupt e s => Abrupt e s
  end.

Notation "c '.>' f" := (chain c f) (at level 50, left associativity).

(** ** Sample requests on the recording host *)

Definition sample_builder : Later.Builder Recorder.host :=
  Later.constructor (host := Recorder.host).

(** [new XMLHttpRequestPromise().openRequest()] *)
Definition opened_builder : Later.Builder Recorder.host :=
  final_state (Later.openRequest sample_builder).

(** [new XMLHttpRequestPromise().setMethod("post").setUrl("/api")
    .openRequest().sendRequest(body)] *)
Definition sample_request : Completion (Later.Builder Recorder.host) PromiseState :=
  Later.setMethod "post" sample_builder
    .> Later.setUrl "/api"
    .> Later.openRequest
    .> Later.sendRequest (ObjectBody "a=1").

Definition earlier_builder : Earlier.Builder Recorder.host :=
  Earlier.constructor (host := Recorder.host).

(** [new XMLHttpRequestPromise().setMethod("post").setUrl("/api").build(body)]
    in the earlier variant. *)
Definition earlier_request : Completion (Earlier.Builder Recorder.host) PromiseState :=
  Earlier.setMethod "post" earlier_builder
    .> Earlier.setUrl "/api"
    .> Earlier.build (ObjectBody "a=1").

(** The handles after the two sends. *)
Definition sample_handle : Recorder.Xhr := Later._xhr (final_state sample_request).

Definition earlier_handle : Recorder.Xhr := Earlier._xhr (final_state earlier_request).

(** What the handle shows at four terminal events. *)
Definition view_200 : XhrView :=
  {| xhr_status := 200; xhr_statusText := "OK"; xhr_response := "hello" |}.

Definition view_204 : XhrView :=
  {| xhr_status := 204; xhr_statusText := "No Content"; xhr_response := "" |}.

Definition view_500 : XhrView :=
  {| xhr_status := 500; xhr_statusText := "Internal Server Error";
     xhr_response := "" |}.

Definition view_network_error : XhrView :=
  {| xhr_status := 0; xhr_statusText := ""; xhr_response := "" |}.

(** Events delivered to listeners. *)
Definition load_event (s : JsVal) : Event :=
  {| target_status := s; lengthComputable := false; loaded := 0; total := 0 |}.

Definition progress_event (computable : bool) (l t : N) : Event :=
  {| target_status := JsNumber 0; lengthComputable := computable;
     loaded := l; total := t |}.

(** A finished transfer of 472358662431197 bytes: [loaded * 100] is above
    [2^53] and is rounded before the division. *)
Definition finished_large_transfer : Event :=
  progress_event true 472358662431197 472358662431197.

(** Operands on which the number model is compared with binary64. *)
Definition sample_operands : list (N * N) :=
  [(50, 200); (0, 7); (7, 0); (0, 0); (1, 3); (2, 3); (200, 50);
   (472358662431197, 472358662431197);
   (6408545435011824, 6408545435011825);
   (90071992547409, 90071992547410);
   (90071992547410, 90071992547410);
   (9007199254740993, 9007199254740992);
   (4611686018427387904, 3);
   (9223372036854775807, 9223372036854775807);
   (9223372036854775806, 9223372036854775807);
   (123456789012345678, 987654321)]%N.

(** ** Terminal events and the later variant's promise *)

(** What a terminal event does to the promise of the later variant's
    [sendRequest]: the handler in the slot runs and [resolve] or [reject]
    acts on the promise. *)
Definition later_deliver (t : Terminal) (p : PromiseState) : PromiseState :=
  match t with
  | LoadCompleted view => settle (Later.onload view) p
  | TransportError view => settle (Later.onerror view) p
  end.

Fixpoint later_deliver_all (ts : list Terminal) (p : PromiseState) : PromiseState :=
  match ts with
  | [] => p
  | t :: rest => later_deliver_all rest (later_deliver t p)
  end.

(** The calls that write one of the three configuration fields. *)
Definition is_setter (op : Later.Op) : bool :=
  match op with
  | Later.OpSetMethod _ | Later.OpSetUrl _ | Later.OpSetAsync _ => true
  | _ => false
  end.

(** * Properties *)

(** ** Running the model on the recording host *)

Example sample_request_is_pending :
  Recorder.promise_of sample_request = Some Pending
  /\ Later._method (final_state sample_request) = "POST"
  /\ Recorder.opened sample_handle = Some ("POST", "/api", true)
  /\ Recorder.sent sample_handle = [ObjectBody "a=1"].
Proof. repeat split; reflexivity. Qed.

(** The end-to-end scenario of the specification: a transport that completes
    with status 201 fulfils the promise with the response. *)
Example sample_request_201_resolves :
  Recorder.complete_load
    {| xhr_status := 201; xhr_statusText := "Created"; xhr_response := "ok:true" |}
    sample_handle Pending
  = Fulfilled "ok:true".
Proof. reflexivity. Qed.

(** A forbidden method passes [setMethod], but the host's [open] throws and
    the builder stays closed. *)
Example connect_stays_closed :
  let c := Later.setMethod "connect" sample_builder .> Later.openRequest in
  c = Abrupt (HostException "SecurityError")
        (Later.with_method sample_builder "CONNECT")
  /\ Later._isOpen (final_state c) = false.
Proof. split; reflexivity. Qed.

(** The number model and the kernel's binary64 arithmetic give the same
    percentage on the sample operands. *)
Example js_percent_agrees_with_binary64 :
  map (fun lt => js_percent (fst lt) (snd lt)) sample_operands
  = map (fun lt => binary64_percent (fst lt) (snd lt)) sample_operands.
Proof. vm_compute. reflexivity. Qed.

(** ** [setMethod] *)

(** The [case] labels of [setMethod]'s [switch] are the nine verbs. *)
Lemma verb_switch_iff (m : string) :
  (m =? "GET") || (m =? "HEAD") || (m =? "POST")
  || (m =? "PUT") || (m =? "DELETE") || (m =? "CONNECT")
  || (m =? "OPTIONS") || (m =? "TRACE") || (m =? "PATCH") = true
  <-> In m http_verbs.
Proof.
  unfold http_verbs.
  repeat rewrite orb_true_iff.
  repeat rewrite String.eqb_eq.
  simpl. split.
  - intros H. repeat destruct H as [H | H]; subst; tauto.
  - intros H. repeat destruct H as [H | H]; subst; try tauto.
Qed.

Lemma verb_switch_false (m : string) :
  ~ In m http_verbs ->
  (m =? "GET") || (m =? "HEAD") || (m =? "POST")
  || (m =? "PUT") || (m =? "DELETE") || (m =? "CONNECT")
  || (m =? "OPTIONS") || (m =? "TRACE") || (m =? "PATCH") = false.
Proof.
  intros H. apply not_true_is_false. intros Ht. apply H.
  apply verb_switch_iff. exact Ht.
Qed.

Section SetMethod.

Context {host : Host}.

Lemma later_setMethod_accepts (b : Later.Builder host) (s : string) :
  Later._isOpen b = false ->
  In (toUpperCase s) http_verbs ->
  Later.setMethod s b = Normal this (Later.with_method b (toUpperCase s)).
Proof.
  intros Hopen Hin. unfold Later.setMethod. rewrite Hopen.
  apply verb_switch_iff in Hin. cbv zeta. rewrite Hin. reflexivity.
Qed.

Lemma later_setMethod_rejects (b : Later.Builder host) (s : string) :
  Later._isOpen b = false ->
  ~ In (toUpperCase s) http_verbs ->
  Later.setMethod s b = Abrupt (Error "Invalid HTTP Verb.") b.
Proof.
  intros Hopen Hin. unfold Later.setMethod. rewrite Hopen.
  cbv zeta. rewrite (verb_switch_false _ Hin). reflexivity.
Qed.

Lemma earlier_setMethod_accepts (b : Earlier.Builder host) (s : string) :
  In (toUpperCase s) http_verbs ->
  Earlier.setMethod s b = Normal this (Earlier.with_method b (toUpperCase s)).
Proof.
  intros Hin. unfold Earlier.setMethod.
  apply verb_switch_iff in Hin. cbv zeta. rewrite Hin. reflexivity.
Qed.

Lemma earlier_setMethod_rejects (b : Earlier.Builder host) (s : string) :
  ~ In (toUpperCase s) http_verbs ->
  Earlier.setMethod s b = Abrupt (Error "Invalid HTTP Verb.") b.
Proof.
  intros Hin. unfold Earlier.setMethod.
  cbv zeta. rewrite (verb_switch_false _ Hin). reflexivity.
Qed.

(** C3.  For every input string, on a builder that is not yet open: when the
    string uppercases to one of the nine verbs, [setMethod] stores the
    upper-case form and returns the builder; for any other string it throws
    the invalid-verb error and the builder, its stored method included, is
    as it was.  The earlier variant, which has no open flag, does the same on
    every builder. *)
Theorem setMethod_normalizes_or_rejects (s : string) :
  (forall b : Later.Builder host,
      Later._isOpen b = false ->
      (In (toUpperCase s) http_verbs ->
       Later.setMethod s b = Normal this (Later.with_method b (toUpperCase s))
       /\ Later._method (final_state (Later.setMethod s b)) = toUpperCase s)
      /\ (~ In (toUpperCase s) http_verbs ->
          Later.setMethod s b = Abrupt (Error "Invalid HTTP Verb.") b
          /\ Later._method (final_state (Later.setMethod s b)) = Later._method b))
  /\ (forall b : Earlier.Builder host,
         (In (toUpperCase s) http_verbs ->
          Earlier.setMethod s b = Normal this (Earlier.with_method b (toUpperCase s))
          /\ Earlier._method (final_state (Earlier.setMethod s b)) = toUpperCase s)
         /\ (~ In (toUpperCase s) http_verbs ->
             Earlier.setMethod s b = Abrupt (Error "Invalid HTTP Verb.") b
             /\ Earlier._method (final_state (Earlier.setMethod s b)) = Earlier._method b)).
Proof.
  split.
  - intros b Hopen. split; intros Hin.
    + rewrite (later_setMethod_accepts b s Hopen Hin). split; reflexivity.
    + rewrite (later_setMethod_rejects b s Hopen Hin). split; reflexivity.
  - intros b. split; intros Hin.
    + rewrite (earlier_setMethod_accepts b s Hin). split; reflexivity.
    + rewrite (earlier_setMethod_rejects b s Hin). split; reflexivity.
Qed.

End SetMethod.

(** ** The open flag *)

Section OpenFlag.

Context {host : Host}.

Lemma setMethod_when_open (b : Later.Builder host) (m : string) :
  Later._isOpen b = true ->
  Later.setMethod m b = Abrupt (Error (Later.already_open_message b)) b.
Proof. intros H. unfold Later.setMethod. rewrite H. reflexivity. Qed.

Lemma setUrl_when_open (b : Later.Builder host) (u : string) :
  Later._isOpen b = true ->
  Later.setUrl u b = Abrupt (Error (Later.already_open_message b)) b.
Proof. intros H. unfold Later.setUrl. rewrite H. reflexivity. Qed.

Lemma setAsync_when_open (b : Later.Builder host) (a : bool) :
  Later._isOpen b = true ->
  Later.setAsync a b = Abrupt (Error (Later.already_open_message b)) b.
Proof. intros H. unfold Later.setAsync. rewrite H. reflexivity. Qed.

Lemma openRequest_when_open (b : Later.Builder host) :
  Later._isOpen b = true ->
  Later.openRequest b = Abrupt (Error (Later.already_open_message b)) b.
Proof. intros H. unfold Later.openRequest. rewrite H. reflexivity. Qed.

(** A successful [openRequest] starts from a closed builder, sets the flag
    and leaves the configuration alone. *)
Lemma openRequest_returns (b b' : Later.Builder host) :
  Later.openRequest b = Normal this b' ->
  Later._isOpen b = false
  /\ Later._isOpen b' = true
  /\ Later.configuration b' = Later.configuration b.
Proof.
  unfold Later.openRequest. destruct (Later._isOpen b) eqn:Hopen.
  - discriminate.
  - destruct (xhr_open _ _ _ _) as [[e|] h]; intros H.
    + discriminate.
    + injection H as <-. repeat split.
Qed.

(** Every method other than [openRequest] leaves the flag as it is. *)
Lemma exec_keeps_flag (op : Later.Op) (b : Later.Builder host) :
  op <> Later.OpOpenRequest ->
  Later._isOpen (Later.exec op b) = Later._isOpen b.
Proof.
  intros Hop. destruct op; simpl.
  - unfold Later.setMethod. destruct (Later._isOpen b) eqn:Hopen; simpl; auto.
    cbv zeta. match goal with |- context [if ?c then _ else _] => destruct c end;
      simpl; auto.
  - unfold Later.setUrl. destruct (Later._isOpen b) eqn:Hopen; simpl; auto.
  - unfold Later.setAsync. destruct (Later._isOpen b) eqn:Hopen; simpl; auto.
  - congruence.
  - unfold Later.setXhrHeader.
    destruct (xhr_setRequestHeader _ _ _) as [[e|] h]; reflexivity.
  - unfold Later.setEventListener.
    destruct (Later.setEventListener_function _ _ _); reflexivity.
  - unfold Later.setUploadEventListener.
    destruct (Later.setUploadEventListener_function _ _ _); reflexivity.
  - unfold Later.sendRequest, Later.makeRequest.
    destruct (negb (Later._isOpen b)); simpl; auto.
    destruct (xhr_send _ _) as [[e|] h]; reflexivity.
Qed.

(** Once the flag is set, no call clears it or touches the configuration. *)
Lemma exec_when_open (op : Later.Op) (b : Later.Builder host) :
  Later._isOpen b = true ->
  Later._isOpen (Later.exec op b) = true
  /\ Later.configuration (Later.exec op b) = Later.configuration b.
Proof.
  intros Hopen. destruct op; simpl.
  - rewrite setMethod_when_open by assumption. auto.
  - rewrite setUrl_when_open by assumption. auto.
  - rewrite setAsync_when_open by assumption. auto.
  - rewrite openRequest_when_open by assumption. auto.
  - unfold Later.setXhrHeader.
    destruct (xhr_setRequestHeader _ _ _) as [[e|] h]; simpl; auto.
  - unfold Later.setEventListener.
    destruct (Later.setEventListener_function _ _ _); simpl; auto.
  - unfold Later.setUploadEventListener.
    destruct (Later.setUploadEventListener_function _ _ _); simpl; auto.
  - unfold Later.sendRequest, Later.makeRequest. rewrite Hopen. simpl.
    destruct (xhr_send _ _) as [[e|] h]; simpl; auto.
Qed.

Lemma run_when_open (ops : list Later.Op) :
  forall b : Later.Builder host,
    Later._isOpen b = true ->
    Later._isOpen (Later.run ops b) = true
    /\ Later.configuration (Later.run ops b) = Later.configuration b.
Proof.
  induction ops as [|op rest IH]; intros b Hopen; simpl.
  - auto.
  - destruct (exec_when_open op b Hopen) as [Hflag Hcfg].
    destruct (IH _ Hflag) as [Hflag' Hcfg'].
    split; [assumption | congruence].
Qed.

Lemma count_when_open (ops : list Later.Op) :
  forall b : Later.Builder host,
    Later._isOpen b = true -> Later.count_sets_isOpen ops b = 0.
Proof.
  induction ops as [|op rest IH]; intros b Hopen; simpl.
  - reflexivity.
  - unfold Later.sets_isOpen. rewrite Hopen. simpl.
    apply IH. apply exec_when_open. assumption.
Qed.

(** In any sequence of calls the flag goes from false to true at most once. *)
Lemma count_at_most_once (ops : list Later.Op) :
  forall b : Later.Builder host, Later.count_sets_isOpen ops b <= 1.
Proof.
  induction ops as [|op rest IH]; intros b; simpl.
  - lia.
  - destruct (Later.sets_isOpen op b) eqn:Hset.
    + unfold Later.sets_isOpen in Hset. apply andb_true_iff in Hset.
      destruct Hset as [_ Hafter].
      rewrite (count_when_open rest _ Hafter). lia.
    + specialize (IH (Later.exec op b)). lia.
Qed.

(** Only [openRequest] sets the flag. *)
Lemma only_openRequest_sets_flag (op : Later.Op) (b : Later.Builder host) :
  Later.sets_isOpen op b = true -> op = Later.OpOpenRequest.
Proof.
  intros Hset. destruct op; try reflexivity;
    unfold Later.sets_isOpen in Hset;
    rewrite exec_keeps_flag in Hset by discriminate;
    destruct (Later._isOpen b); discriminate.
Qed.

(** C2.  The method, URL and async fields can be changed exactly while
    [_isOpen] is false.  On a closed builder [setUrl] and [setAsync] store
    their argument and [setMethod] stores a valid verb, upper-cased, so that
    the field read afterwards holds the new value; a successful
    [openRequest] sets the flag and keeps the configuration.  On an open
    builder [setMethod], [setUrl], [setAsync] and a further [openRequest]
    each throw the already-open error, whose message names the configured
    method and URL, and leave the builder as it was; whatever calls follow,
    the flag stays set and the configuration stays the same.  In any sequence
    of calls the flag is set at most once, and only by [openRequest]. *)
Theorem configuration_mutable_iff_closed (b : Later.Builder host) :
  (Later._isOpen b = false ->
     (forall u, Later.setUrl u b = Normal this (Later.with_url b u)
                /\ Later._url (final_state (Later.setUrl u b)) = u)
     /\ (forall a, Later.setAsync a b = Normal this (Later.with_async b a)
                   /\ Later._async (final_state (Later.setAsync a b)) = a)
     /\ (forall m, In (toUpperCase m) http_verbs ->
                   Later.setMethod m b
                   = Normal this (Later.with_method b (toUpperCase m))
                   /\ Later._method (final_state (Later.setMethod m b))
                      = toUpperCase m))
  /\ (forall b', Later.openRequest b = Normal this b' ->
        Later._isOpen b = false
        /\ Later._isOpen b' = true
        /\ Later.configuration b' = Later.configuration b
        /\ (forall m, Later.setMethod m b'
                      = Abrupt (Error (Later.already_open_message b')) b')
        /\ (forall u, Later.setUrl u b'
                      = Abrupt (Error (Later.already_open_message b')) b')
        /\ (forall a, Later.setAsync a b'
                      = Abrupt (Error (Later.already_open_message b')) b')
        /\ Later.openRequest b'
           = Abrupt (Error (Later.already_open_message b')) b')
  /\ (Later._isOpen b = true ->
        (forall m, Later.setMethod m b
                   = Abrupt (Error (Later.already_open_message b)) b)
        /\ (forall u, Later.setUrl u b
                      = Abrupt (Error (Later.already_open_message b)) b)
        /\ (forall a, Later.setAsync a b
                      = Abrupt (Error (Later.already_open_message b)) b)
        /\ Later.openRequest b = Abrupt (Error (Later.already_open_message b)) b
        /\ Later.already_open_message b
           = "XMLHttpRequestPromise: XMLHttpRequest is Open, with HTTP Verb "
               ++ Later._method b ++ " going to URL " ++ Later._url b
        /\ (forall ops, Later._isOpen (Later.run ops b) = true
                        /\ Later.configuration (Later.run ops b) = Later.configuration b))
  /\ (forall ops, Later.count_sets_isOpen ops b <= 1)
  /\ (forall op, Later.sets_isOpen op b = true -> op = Later.OpOpenRequest).
Proof.
  split; [| split; [| split; [| split]]].
  - intros Hclosed. split; [|split].
    + intros u. unfold Later.setUrl. rewrite Hclosed. split; reflexivity.
    + intros a. unfold Later.setAsync. rewrite Hclosed. split; reflexivity.
    + intros m Hin. rewrite (later_setMethod_accepts b m Hclosed Hin).
      split; reflexivity.
  - intros b' Hret.
    destruct (openRequest_returns b b' Hret) as (Hclosed & Hopen & Hcfg).
    repeat split; try assumption.
    + intros m. apply setMethod_when_open. assumption.
    + intros u. apply setUrl_when_open. assumption.
    + intros a. apply setAsync_when_open. assumption.
    + apply openRequest_when_open. assumption.
  - intros Hopen. repeat split.
    + intros m. apply setMethod_when_open. assumption.
    + intros u. apply setUrl_when_open. assumption.
    + intros a. apply setAsync_when_open. assumption.
    + apply openRequest_when_open. assumption.
    + apply run_when_open. assumption.
    + apply run_when_open. assumption.
  - intros ops. apply count_at_most_once.
  - intros op. apply only_openRequest_sets_flag.
Qed.

(** C7.  [sendRequest] on a builder that is not open throws the not-open
    error at once and leaves the builder, its handle included, untouched: no
    handler was installed and the host's [send] was not called. *)
Theorem sendRequest_requires_open (b : Later.Builder host) (body : Body) :
  Later._isOpen b = false ->
  Later.sendRequest body b
  = Abrupt (Error "XMLHttpRequestPromise: XMLHttpRequest is not open.") b
  /\ Later._xhr (final_state (Later.sendRequest body b)) = Later._xhr b.
Proof.
  intros Hclosed. unfold Later.sendRequest. rewrite Hclosed. simpl.
  split; reflexivity.
Qed.

End OpenFlag.

(** ** Listener registration *)

Lemma js_strict_eq_iff (v : JsVal) (k : N) :
  js_strict_eq v k = true <-> v = JsNumber k.
Proof.
  destruct v as [|n]; simpl.
  - split; discriminate.
  - rewrite N.eqb_eq. split; congruence.
Qed.

Lemma js_strict_eq_other (v : JsVal) (k : N) :
  v <> JsNumber k -> js_strict_eq v k = false.
Proof.
  intros H. apply not_true_is_false. rewrite js_strict_eq_iff. exact H.
Qed.

(** *** Double arithmetic in the exact range *)

Local Open Scope N_scope.

(** Rounding half-even gives the quotient or, when the remainder is at
    least half the divisor, the quotient plus one. *)
Lemma round_half_even_cases (num den : N) :
  round_half_even num den = num / den
  \/ (round_half_even num den = num / den + 1 /\ den <= 2 * (num mod den)).
Proof.
  unfold round_half_even.
  destruct (N.compare_spec (2 * (num mod den)) den) as [H|H|H].
  - destruct (N.even (num / den)); [left; reflexivity | right; split; [reflexivity | lia]].
  - left. reflexivity.
  - right. split; [reflexivity | lia].
Qed.

(** For a numerator below [2^53] the double nearest to [a / b] has the
    integer part of [a / b]: rounding never reaches the next integer. *)
Lemma floor_quotient_double_exact (a b : N) :
  0 < b -> a < 2 ^ 53 -> floor_quotient_double a b = a / b.
Proof.
  intros Hb Ha. unfold floor_quotient_double. cbv zeta.
  assert (Hbne : b <> 0) by lia.
  pose proof (N.div_mod (a * 2 ^ 53) b Hbne) as HQ.
  pose proof (N.mod_lt (a * 2 ^ 53) b Hbne) as HQr.
  pose proof (N.div_mod a b Hbne) as Hn.
  pose proof (N.mod_lt a b Hbne) as Hnr.
  set (Q := a * 2 ^ 53 / b) in *. set (R := (a * 2 ^ 53) mod b) in *.
  set (n := a / b) in *. set (r0 := a mod b) in *.
  clearbody Q R n r0.
  change (2 ^ 53) with 9007199254740992 in *.
  destruct (N.ltb_spec Q (2 ^ 52)) as [Hsmall|Hbig];
    change (2 ^ 52) with 4503599627370496 in *.
  - destruct (N.eq_0_gt_0_cases n) as [H0|Hpos]; [lia|].
    exfalso. assert (b <= b * n) by nia. nia.
  - assert (HQpos : 0 < Q) by lia.
    destruct (N.log2_spec Q HQpos) as [Hlo _].
    assert (Hlog : 52 <= N.log2 Q).
    { rewrite <- (N.log2_pow2 52) by lia. apply N.log2_le_mono. exact Hbig. }
    set (e := N.log2 Q - 52).
    assert (He : N.log2 Q = e + 52) by (unfold e; lia).
    rewrite He in Hlo. rewrite N.pow_add_r in Hlo.
    change (2 ^ 52) with 4503599627370496 in Hlo.
    assert (HQa : Q <= a * 9007199254740992) by (clear - HQ Hb; nia).
    assert (He53 : e <= 53).
    { destruct (N.le_gt_cases e 53) as [H|H]; [exact H|].
      assert (H54 : 2 ^ 54 <= 2 ^ e) by (apply N.pow_le_mono_r; lia).
      change (2 ^ 54) with 18014398509481984 in H54. lia. }
    assert (HPS : 2 ^ e * 2 ^ (53 - e) = 9007199254740992).
    { rewrite <- N.pow_add_r. replace (e + (53 - e)) with 53 by lia. reflexivity. }
    assert (HPpos : 0 < 2 ^ e) by (apply N.neq_0_lt_0, N.pow_nonzero; lia).
    assert (HSpos : 0 < 2 ^ (53 - e)) by (apply N.neq_0_lt_0, N.pow_nonzero; lia).
    set (P := 2 ^ e) in *. set (S := 2 ^ (53 - e)) in *.
    assert (Hdne : b * P <> 0) by (clear - Hb HPpos; nia).
    pose proof (N.div_mod (a * 9007199254740992) (b * P) Hdne) as Hq.
    pose proof (N.mod_lt (a * 9007199254740992) (b * P) Hdne) as Hqr.
    pose proof (round_half_even_cases (a * 9007199254740992) (b * P)) as Hm.
    set (m := round_half_even (a * 9007199254740992) (b * P)) in *.
    set (q := a * 9007199254740992 / (b * P)) in *.
    set (r := a * 9007199254740992 mod (b * P)) in *.
    clearbody m q r P S. clear e He He53 Hlog.
    assert (HbP : b * P <= 2 * a).
    { assert (b * (P * 4503599627370496) <= b * Q) by (clear - Hlo; nia). lia. }
    assert (Hlow : n * S <= q).
    { assert (H1 : n * S * (b * P) = (b * n) * (P * S)) by lia.
      assert (H2 : n * S * (b * P) <= b * P * q + r) by (rewrite H1, HPS; lia).
      clear - H2 Hqr. nia. }
    assert (Hup : q < (n + 1) * S).
    { assert (H1 : (n + 1) * S * (b * P) = (b * n + b) * (P * S)) by lia.
      assert (H2 : b * P * q < (n + 1) * S * (b * P)) by (rewrite H1, HPS; lia).
      destruct (N.lt_ge_cases q ((n + 1) * S)) as [H|H]; [exact H|]. exfalso.
      assert ((n + 1) * S * (b * P) <= q * (b * P))
        by (apply N.mul_le_mono_r; exact H).
      lia. }
    assert (Hmup : m < (n + 1) * S).
    { destruct Hm as [-> | [-> Hround]]; [exact Hup|].
      destruct (N.lt_ge_cases (q + 1) ((n + 1) * S)) as [H|H]; [exact H|].
      exfalso.
      assert (Hq1 : q + 1 = (n + 1) * S) by lia.
      assert (H1 : (q + 1) * (b * P) = (b * n + b) * (P * S))
        by (rewrite Hq1; lia).
      rewrite HPS in H1.
      assert (H2 : (q + 1) * (b * P) = b * P * q + b * P) by lia.
      lia. }
    assert (Hmlow : n * S <= m) by (destruct Hm as [-> | [-> _]]; lia).
    symmetry.
    apply (N.div_unique (m * P) 9007199254740992 n (m * P - 9007199254740992 * n)).
    + assert (m * P < (n + 1) * S * P) by (clear - Hmup HPpos; nia).
      assert ((n + 1) * S * P = (n + 1) * (P * S)) by lia.
      assert (n * S * P <= m * P) by (clear - Hmlow; nia).
      assert (n * S * P = n * (P * S)) by lia.
      rewrite HPS in *. lia.
    + assert (n * S * P <= m * P) by (clear - Hmlow; nia).
      assert (n * S * P = n * (P * S)) by lia.
      rewrite HPS in *. lia.
Qed.

(** An integer below [2^53] is read as itself. *)
Lemma floor_quotient_double_id (n : N) :
  n < 2 ^ 53 -> floor_quotient_double n 1 = n.
Proof.
  intros H. rewrite floor_quotient_double_exact by (assumption || lia).
  apply N.div_1_r.
Qed.

Lemma js_number_exact (n : N) :
  double_exact n -> js_number n = Finite n.
Proof.
  unfold double_exact, js_number. intros Hn. cbv zeta.
  rewrite floor_quotient_double_id by exact Hn.
  assert (Hlt : n < 2 ^ 1024).
  { apply N.lt_trans with (2 ^ 53); [exact Hn|].
    apply N.pow_lt_mono_r; lia. }
  apply N.ltb_lt in Hlt. rewrite Hlt. reflexivity.
Qed.

(** In the exact range the wrapper's expression
    [Math.floor((loaded * 100) / total)] is the integer floor of
    [loaded * 100 / total]. *)
Lemma js_percent_exact (l t : N) :
  0 < t -> double_exact (l * 100) -> double_exact t ->
  js_floor_div (js_mul (js_number l) (Finite 100)) (js_number t)
  = Finite (l * 100 / t)
  /\ l * 100 / t * t <= l * 100 < (l * 100 / t + 1) * t.
Proof.
  intros Ht Hl100 Htx.
  assert (Hl : double_exact l) by (unfold double_exact in *; lia).
  rewrite (js_number_exact l Hl), (js_number_exact t Htx).
  unfold js_mul. rewrite (js_number_exact (l * 100) Hl100).
  unfold js_floor_div.
  destruct (N.eqb_spec t 0) as [->|Hne]; [lia|].
  rewrite floor_quotient_double_exact by assumption.
  split; [reflexivity|].
  pose proof (N.div_mod (l * 100) t Hne) as Hdm.
  pose proof (N.mod_lt (l * 100) t Hne) as Hlt.
  set (q := l * 100 / t) in *. set (r := (l * 100) mod t) in *.
  clearbody q r. lia.
Qed.

Local Close Scope N_scope.

(** Case analysis on a [switch] over the event name: one goal per [case]
    label, with the name replaced by the label, and one for [default]. *)
Ltac switch_on event :=
  repeat match goal with
         | |- context [String.eqb event ?label] =>
             destruct (String.eqb_spec event label) as [->|?]
         end.

Section Listeners.

Context {host : Host}.

(** The two copies of the [switch] are the same function of their
    arguments. *)
Lemma later_switches_agree (event : string) (cb : Callback) (ocb : OptionalCallback) :
  match Later.setEventListener_function event cb ocb,
        Later.setUploadEventListener_function event cb ocb with
  | inl e, inl e' => e = e' /\ ~ In event supported_events
  | inr w, inr w' => (forall evt, w evt = w' evt) /\ In event supported_events
  | _, _ => False
  end.
Proof.
  unfold Later.setEventListener_function, Later.setUploadEventListener_function,
    supported_events.
  switch_on event; simpl;
    (split; [reflexivity || (intros; reflexivity) | intuition congruence]).
Qed.

Lemma later_switch_unimplemented (event : string) (cb : Callback) (ocb : OptionalCallback) :
  In event unimplemented_events ->
  Later.setEventListener_function event cb ocb
  = inl (Error (not_implemented_message event))
  /\ Later.setUploadEventListener_function event cb ocb
     = inl (Error (not_implemented_message event)).
Proof.
  unfold unimplemented_events. simpl.
  intros [<-|[<-|[<-|[<-|[]]]]]; split; reflexivity.
Qed.

Lemma later_switch_default (event : string) (cb : Callback) (ocb : OptionalCallback) :
  ~ In event mapped_events ->
  Later.setEventListener_function event cb ocb
  = inl (Error (invalid_event_message event))
  /\ Later.setUploadEventListener_function event cb ocb
     = inl (Error (invalid_event_message event)).
Proof.
  unfold mapped_events. simpl. intros Hout.
  unfold Later.setEventListener_function, Later.setUploadEventListener_function.
  switch_on event; try solve [exfalso; intuition congruence].
  split; reflexivity.
Qed.

(** C4.  Registering a [load] listener, on the main handle or on the upload
    handle, attaches a wrapper that calls the primary callback with the
    event when [evt.target.status] is exactly 200 and calls the secondary
    callback with the event for every other status, the other 2xx codes
    included. *)
Theorem load_listener_dispatch
  (b : Later.Builder host) (cb : Callback) (ocb : OptionalCallback) (opts : option bool) :
  exists w w' : Listener,
    Later.setEventListener "load" cb ocb opts b
    = Normal this
        (Later.with_xhr b (xhr_addEventListener MainHandle "load" w opts (Later._xhr b)))
    /\ Later.setUploadEventListener "load" cb ocb opts b
       = Normal this
           (Later.with_xhr b
              (xhr_addEventListener UploadHandle "load" w' opts (Later._xhr b)))
    /\ forall evt : Event,
         (target_status evt = JsNumber 200 ->
          w evt = Calls cb [AEvent evt] /\ w' evt = Calls cb [AEvent evt])
         /\ (target_status evt <> JsNumber 200 ->
             w evt = js_call ocb [AEvent evt]
             /\ w' evt = js_call ocb [AEvent evt]
             /\ forall f, ocb = IsFunction f ->
                          w evt = Calls f [AEvent evt]
                          /\ w' evt = Calls f [AEvent evt]).
Proof.
  eexists. eexists.
  split; [reflexivity|]. split; [reflexivity|].
  intros evt. cbv beta. split.
  - intros H200. apply js_strict_eq_iff in H200. rewrite H200. auto.
  - intros Hother. rewrite (js_strict_eq_other _ _ Hother).
    split; [reflexivity|]. split; [reflexivity|].
    intros f ->. split; reflexivity.
Qed.

(** C5, as amended.  Registering a [progress] listener, on either handle,
    attaches a wrapper that calls the primary callback with [0] and the
    event when the length is not computable, and with
    [Math.floor((loaded * 100) / total)], computed in doubles, and the event
    when it is; for a non-zero total with [loaded * 100] and [total] in the
    exact range of a double that number is the integer floor of
    [loaded * 100 / total]. *)
Theorem progress_listener_percent
  (b : Later.Builder host) (cb : Callback) (ocb : OptionalCallback) (opts : option bool) :
  exists w w' : Listener,
    Later.setEventListener "progress" cb ocb opts b
    = Normal this
        (Later.with_xhr b
           (xhr_addEventListener MainHandle "progress" w opts (Later._xhr b)))
    /\ Later.setUploadEventListener "progress" cb ocb opts b
       = Normal this
           (Later.with_xhr b
              (xhr_addEventListener UploadHandle "progress" w' opts (Later._xhr b)))
    /\ forall evt : Event,
         w' evt = w evt
         /\ (lengthComputable evt = false ->
             w evt = Calls cb [ANumber (Finite 0); AEvent evt])
         /\ (lengthComputable evt = true ->
             w evt = Calls cb [ANumber (js_floor_div
                                          (js_mul (js_number (loaded evt)) (Finite 100))
                                          (js_number (total evt)));
                               AEvent evt]
             /\ ((0 < total evt)%N ->
                 double_exact (loaded evt * 100) -> double_exact (total evt) ->
                 w evt = Calls cb [ANumber (Finite (loaded evt * 100 / total evt));
                                   AEvent evt]
                 /\ (loaded evt * 100 / total evt * total evt
                     <= loaded evt * 100
                     < (loaded evt * 100 / total evt + 1) * total evt)%N)).
Proof.
  eexists. eexists.
  split; [reflexivity|]. split; [reflexivity|].
  intros evt. cbv beta zeta. split; [reflexivity|]. split.
  - intros ->. reflexivity.
  - intros ->. split; [reflexivity|].
    intros Hpos Hl Ht.
    destruct (js_percent_exact (loaded evt) (total evt) Hpos Hl Ht) as [-> Hfloor].
    split; [reflexivity | exact Hfloor].
Qed.

(** C6.  Whatever the builder's state, registering a listener for
    [loadend], [loadstart], [timeout] or [readystatechange] throws the
    not-implemented error naming the event, and registering one for a name
    outside the mapped set throws the invalid-event error naming the event;
    this holds for both listener operations, and the builder is left as it
    was. *)
Theorem unsupported_events_refused
  (b : Later.Builder host) (event : string)
  (cb : Callback) (ocb : OptionalCallback) (opts : option bool) :
  (In event unimplemented_events ->
   Later.setEventListener event cb ocb opts b
   = Abrupt (Error ("XMLHttpRequestPromise: Event function " ++ event
                      ++ " not implemented.")) b
   /\ Later.setUploadEventListener event cb ocb opts b
      = Abrupt (Error ("XMLHttpRequestPromise: Event function " ++ event
                         ++ " not implemented.")) b)
  /\ (~ In event mapped_events ->
      Later.setEventListener event cb ocb opts b
      = Abrupt (Error ("XMLHttpRequestPromise: Invalid listener event property "
                         ++ event ++ ".")) b
      /\ Later.setUploadEventListener event cb ocb opts b
         = Abrupt (Error ("XMLHttpRequestPromise: Invalid listener event property "
                            ++ event ++ ".")) b).
Proof.
  unfold Later.setEventListener, Later.setUploadEventListener. split.
  - intros Hin.
    destruct (later_switch_unimplemented event cb ocb Hin) as [-> ->].
    split; reflexivity.
  - intros Hout.
    destruct (later_switch_default event cb ocb Hout) as [-> ->].
    split; reflexivity.
Qed.

(** C8.  For every event name, callbacks and options the two listener
    operations behave alike: for a name outside [abort], [error], [load],
    [progress] both throw the same error and leave the builder as it was;
    for those four names both return, having registered wrappers that agree
    on every event, [setEventListener] on the main handle and
    [setUploadEventListener] on the upload handle. *)
Theorem listener_operations_agree
  (b : Later.Builder host) (event : string)
  (cb : Callback) (ocb : OptionalCallback) (opts : option bool) :
  (~ In event supported_events
   /\ exists e : Exn,
       Later.setEventListener event cb ocb opts b = Abrupt e b
       /\ Later.setUploadEventListener event cb ocb opts b = Abrupt e b)
  \/ (In event supported_events
      /\ exists w w' : Listener,
          (forall evt, w evt = w' evt)
          /\ Later.setEventListener event cb ocb opts b
             = Normal this
                 (Later.with_xhr b
                    (xhr_addEventListener MainHandle event w opts (Later._xhr b)))
          /\ Later.setUploadEventListener event cb ocb opts b
             = Normal this
                 (Later.with_xhr b
                    (xhr_addEventListener UploadHandle event w' opts (Later._xhr b)))).
Proof.
  pose proof (later_switches_agree event cb ocb) as Hagree.
  unfold Later.setEventListener, Later.setUploadEventListener.
  destruct (Later.setEventListener_function event cb ocb) as [e|w];
    destruct (Later.setUploadEventListener_function event cb ocb) as [e'|w'];
    try contradiction.
  - destruct Hagree as [<- Hout]. left. split; [exact Hout|].
    exists e. split; reflexivity.
  - destruct Hagree as [Hext Hin]. right. split; [exact Hin|].
    exists w, w'. repeat split. exact Hext.
Qed.

(** C9.  When either listener operation throws, the builder it leaves is the
    builder it was given: the handle (and so the listeners attached to
    either target) and the configuration are unchanged. *)
Theorem failed_registration_is_atomic
  (b b' : Later.Builder host) (event : string)
  (cb : Callback) (ocb : OptionalCallback) (opts : option bool) (e : Exn) :
  Later.setEventListener event cb ocb opts b = Abrupt e b'
  \/ Later.setUploadEventListener event cb ocb opts b = Abrupt e b' ->
  b' = b
  /\ Later._xhr b' = Later._xhr b
  /\ Later.configuration b' = Later.configuration b
  /\ Later._isOpen b' = Later._isOpen b.
Proof.
  unfold Later.setEventListener, Later.setUploadEventListener.
  intros [H|H].
  - destruct (Later.setEventListener_function event cb ocb); [|discriminate].
    injection H as _ <-. repeat split.
  - destruct (Later.setUploadEventListener_function event cb ocb); [|discriminate].
    injection H as _ <-. repeat split.
Qed.

End Listeners.

(** ** The two variants side by side *)

Section Variants.

Context {host : Host}.

(** The earlier variant builds the same wrappers for the supported events. *)
Lemma earlier_switch_supported (event : string) (cb : Callback) (ocb : OptionalCallback) :
  In event supported_events ->
  Earlier.setEventListener_function event cb ocb
  = Later.setEventListener_function event cb ocb
  /\ Earlier.setUploadEventListener_function event cb ocb
     = Later.setUploadEventListener_function event cb ocb.
Proof.
  unfold supported_events. simpl.
  intros [<-|[<-|[<-|[<-|[]]]]]; split; reflexivity.
Qed.

(** It refuses the other names too, with messages that do not name the
    event. *)
Lemma earlier_switch_refuses (event : string) (cb : Callback) (ocb : OptionalCallback) :
  (In event unimplemented_events ->
   Earlier.setEventListener_function event cb ocb
   = inl (Error "Event function not implemented."))
  /\ (~ In event mapped_events ->
      Earlier.setEventListener_function event cb ocb
      = inl (Error "Invalid listener event property.")).
Proof.
  split.
  - unfold unimplemented_events. simpl.
    intros [<-|[<-|[<-|[<-|[]]]]]; reflexivity.
  - unfold mapped_events. simpl. intros Hout.
    unfold Earlier.setEventListener_function.
    switch_on event; try solve [exfalso; intuition congruence].
    reflexivity.
Qed.

(** C10.  A [load] listener registered with a null (or missing) secondary
    callback, invoked with an event whose status is not 200, does not fall
    back to the primary callback: the wrapper calls the null value, which
    throws a [TypeError], and nothing is called.  This holds for both
    variants and both listener operations. *)
Theorem null_secondary_never_falls_back
  (cb : Callback) (ocb : OptionalCallback) (opts : option bool) (evt : Event) :
  ocb = IsNull \/ ocb = IsUndefined ->
  target_status evt <> JsNumber 200 ->
  (forall b : Later.Builder host,
      exists w w' : Listener,
        Later.setEventListener "load" cb ocb opts b
        = Normal this
            (Later.with_xhr b
               (xhr_addEventListener MainHandle "load" w opts (Later._xhr b)))
        /\ Later.setUploadEventListener "load" cb ocb opts b
           = Normal this
               (Later.with_xhr b
                  (xhr_addEventListener UploadHandle "load" w' opts (Later._xhr b)))
        /\ w evt = Raises (TypeError "optionalCallback is not a function")
        /\ w' evt = Raises (TypeError "optionalCallback is not a function")
        /\ (forall f args, w evt <> Calls f args)
        /\ (forall f args, w' evt <> Calls f args))
  /\ (forall b : Earlier.Builder host,
         exists w w' : Listener,
           Earlier.setEventListener "load" cb ocb opts b
           = Normal this
               (Earlier.with_xhr b
                  (xhr_addEventListener MainHandle "load" w opts (Earlier._xhr b)))
           /\ Earlier.setUploadEventListener "load" cb ocb opts b
              = Normal this
                  (Earlier.with_xhr b
                     (xhr_addEventListener UploadHandle "load" w' opts (Earlier._xhr b)))
           /\ w evt = Raises (TypeError "optionalCallback is not a function")
           /\ w' evt = Raises (TypeError "optionalCallback is not a function")
           /\ (forall f args, w evt <> Calls f args)
           /\ (forall f args, w' evt <> Calls f args)).
Proof.
  intros Hnull Hstatus.
  pose proof (js_strict_eq_other _ _ Hstatus) as Hneq.
  assert (Hcall : js_call ocb [AEvent evt]
                  = Raises (TypeError "optionalCallback is not a function"))
    by (destruct Hnull as [-> | ->]; reflexivity).
  split; intros b; eexists; eexists;
    (split; [reflexivity|]); (split; [reflexivity|]);
    cbv beta; rewrite Hneq, Hcall;
    repeat split; intros f args; discriminate.
Qed.

(** ** The send promise *)

(** X1.  The later variant settles the promise by the terminal status: an open
    builder's [sendRequest] installs [onload] and [onerror] and calls [send];
    [onload] fulfils a pending promise with the response for a status in
    [200, 300) and rejects it with the status and status text otherwise, and
    [onerror] rejects it with the status and status text. *)
Lemma sendRequest_settles_by_status (b : Later.Builder host) (body : Body) :
  Later._isOpen b = true ->
  (exists p,
      Later.sendRequest body b
      = Normal p
          (Later.with_xhr b
             (snd (xhr_send body
                     (xhr_set_onerror Later.onerror
                        (xhr_set_onload Later.onload (Later._xhr b)))))))
  /\ forall view : XhrView,
       (is_2xx (xhr_status view) ->
        settle (Later.onload view) Pending = Fulfilled (xhr_response view))
       /\ (~ is_2xx (xhr_status view) ->
           settle (Later.onload view) Pending
           = Rejected (StatusReason {| status := JsNumber (xhr_status view);
                                       statusText := xhr_statusText view |}))
       /\ settle (Later.onerror view) Pending
          = Rejected (StatusReason {| status := JsNumber (xhr_status view);
                                      statusText := xhr_statusText view |}).
Proof.
  intros Hopen. split.
  - unfold Later.sendRequest, Later.makeRequest. rewrite Hopen. simpl.
    destruct (xhr_send _ _) as [[e|] h]; simpl; eexists; reflexivity.
  - intros view. unfold Later.onload, Later.onerror, is_2xx.
    repeat split.
    + intros [Hlo Hhi].
      apply N.leb_le in Hlo. apply N.ltb_lt in Hhi. rewrite Hlo, Hhi. reflexivity.
    + intros Hout.
      destruct (N.leb_spec 200 (xhr_status view));
        destruct (N.ltb_spec (xhr_status view) 300); simpl; try reflexivity.
      exfalso. apply Hout. split; assumption.
Qed.

(** In the earlier variant both handlers installed by [build] throw before
    they reach [resolve] or [reject], whatever the handle shows: the promise
    is left as it was. *)
Lemma build_handlers_throw (view : XhrView) (p : PromiseState) :
  Earlier.onload Earlier.ThisUndefined view
  = HandlerRaises (TypeError "Cannot read properties of undefined (reading 'status')")
  /\ Earlier.onerror Earlier.ThisUndefined view
     = HandlerRaises (TypeError "Cannot read properties of undefined (reading 'status')")
  /\ settle (Earlier.onload Earlier.ThisUndefined view) p = p
  /\ settle (Earlier.onerror Earlier.ThisUndefined view) p = p.
Proof.
  repeat split; destruct p; reflexivity.
Qed.

Lemma build_installs_handlers (b : Earlier.Builder host) (body : Body) (h0 : Handle) :
  xhr_open (Earlier._method b) (Earlier._url b) true (Earlier._xhr b) = (None, h0) ->
  exists p,
    Earlier.build body b
    = Normal p
        (Earlier.with_xhr b
           (snd (xhr_send body
                   (xhr_set_onerror (Earlier.onerror Earlier.ThisUndefined)
                      (xhr_set_onload (Earlier.onload Earlier.ThisUndefined) h0))))).
Proof.
  intros Hopen. unfold Earlier.build, Earlier.makeRequest. rewrite Hopen.
  destruct (xhr_send _ _) as [[e|] h]; simpl; eexists; reflexivity.
Qed.

End Variants.

(** ** The properties at concrete requests *)

(** The later variant on the recording host: status 204 fulfils the promise,
    status 500 and a transport error reject it with the status and the
    status text, and a settled promise stays as it is. *)
Example sendRequest_terminal_events :
  Recorder.complete_load view_204 sample_handle Pending = Fulfilled ""
  /\ Recorder.complete_load view_500 sample_handle Pending
     = Rejected (StatusReason {| status := JsNumber 500;
                                 statusText := "Internal Server Error" |})
  /\ Recorder.complete_error view_network_error sample_handle Pending
     = Rejected (StatusReason {| status := JsNumber 0; statusText := "" |})
  /\ Recorder.complete_error view_network_error sample_handle (Fulfilled "hello")
     = Fulfilled "hello".
Proof. repeat split; reflexivity. Qed.

(** C1, at the earlier variant.  [build] opens the handle, installs its
    handlers, sends the body and returns a pending promise; when the host
    then completes the request, with status 200, 204 or 500 or with a
    transport error, the handler throws a [TypeError] on [this.status] and
    the promise stays pending: it is neither fulfilled with the response nor
    rejected with the status and the status text. *)
Theorem build_promise_stays_pending :
  Recorder.promise_of earlier_request = Some Pending
  /\ Recorder.opened earlier_handle = Some ("POST", "/api", true)
  /\ Recorder.sent earlier_handle = [ObjectBody "a=1"]
  /\ Recorder.load_effect view_200 earlier_handle
     = Some (HandlerRaises
               (TypeError "Cannot read properties of undefined (reading 'status')"))
  /\ Recorder.error_effect view_network_error earlier_handle
     = Some (HandlerRaises
               (TypeError "Cannot read properties of undefined (reading 'status')"))
  /\ Recorder.complete_load view_200 earlier_handle Pending = Pending
  /\ Recorder.complete_load view_204 earlier_handle Pending = Pending
  /\ Recorder.complete_load view_500 earlier_handle Pending = Pending
  /\ Recorder.complete_error view_network_error earlier_handle Pending = Pending
  /\ Recorder.complete_load view_200 sample_handle Pending = Fulfilled "hello".
Proof.
  assert (Hsend : Recorder.promise_of earlier_request = Some Pending
                  /\ Recorder.opened earlier_handle = Some ("POST", "/api", true)
                  /\ Recorder.sent earlier_handle = [ObjectBody "a=1"])
    by (repeat split; reflexivity).
  destruct Hsend as (Hp & Ho & Hs).
  destruct (build_handlers_throw view_200 Pending) as (Hload & _ & Hkeep & _).
  destruct (build_handlers_throw view_network_error Pending) as (_ & Herr & _ & Hkeep').
  repeat split; try assumption; reflexivity.
Qed.

(** The listener wrappers at the events of the specification's examples. *)
Example load_listener_200_and_404 :
  Recorder.dispatch MainHandle "load" (load_event (JsNumber 200))
    (Later._xhr (final_state
       (Later.setEventListener "load" (Fn 1) (IsFunction (Fn 2)) None sample_builder)))
  = [Calls (Fn 1) [AEvent (load_event (JsNumber 200))]]
  /\ Recorder.dispatch MainHandle "load" (load_event (JsNumber 404))
       (Later._xhr (final_state
          (Later.setEventListener "load" (Fn 1) (IsFunction (Fn 2)) None sample_builder)))
     = [Calls (Fn 2) [AEvent (load_event (JsNumber 404))]]
  /\ Recorder.dispatch MainHandle "load" (load_event (JsNumber 204))
       (Later._xhr (final_state
          (Later.setEventListener "load" (Fn 1) (IsFunction (Fn 2)) None sample_builder)))
     = [Calls (Fn 2) [AEvent (load_event (JsNumber 204))]]
  /\ Recorder.dispatch UploadHandle "load" (load_event JsUndefined)
       (Later._xhr (final_state
          (Later.setUploadEventListener "load" (Fn 1) (IsFunction (Fn 2)) None
             sample_builder)))
     = [Calls (Fn 2) [AEvent (load_event JsUndefined)]].
Proof. repeat split; reflexivity. Qed.

Example progress_listener_50_of_200 :
  Recorder.dispatch UploadHandle "progress" (progress_event true 50 200)
    (Later._xhr (final_state
       (Later.setUploadEventListener "progress" (Fn 1) IsNull None sample_builder)))
  = [Calls (Fn 1) [ANumber (Finite 25); AEvent (progress_event true 50 200)]]
  /\ Recorder.dispatch MainHandle "progress" (progress_event false 50 200)
       (Later._xhr (final_state
          (Later.setEventListener "progress" (Fn 1) IsNull None sample_builder)))
     = [Calls (Fn 1) [ANumber (Finite 0); AEvent (progress_event false 50 200)]]
  /\ Recorder.dispatch MainHandle "progress" (progress_event true 50 0)
       (Later._xhr (final_state
          (Later.setEventListener "progress" (Fn 1) IsNull None sample_builder)))
     = [Calls (Fn 1) [ANumber PosInfinity; AEvent (progress_event true 50 0)]].
Proof. repeat split; reflexivity. Qed.

(** [setMethod "post"] on a closed builder stores ["POST"]. *)
Lemma setMethod_normalizes_witness :
  Later._isOpen sample_builder = false
  /\ In (Recorder.ascii_toUpperCase "post") http_verbs
  /\ Later.setMethod "post" sample_builder
     = Normal this (Later.with_method sample_builder "POST").
Proof.
  assert (Hin : In (Recorder.ascii_toUpperCase "post") http_verbs)
    by (simpl; tauto).
  split; [reflexivity|]. split; [exact Hin|].
  exact (proj1 (proj1 (proj1 (setMethod_normalizes_or_rejects
                                (host := Recorder.host) "post")
                         sample_builder eq_refl) Hin)).
Defined.

(** Before [openRequest] a setter stores its argument; after it the
    setters and a second [openRequest] throw. *)
Lemma configuration_frozen_witness :
  Later._isOpen sample_builder = false
  /\ Later._url (final_state (Later.setUrl "/other" sample_builder)) = "/other"
  /\ Later._async (final_state (Later.setAsync false sample_builder)) = false
  /\ Later.openRequest sample_builder = Normal this opened_builder
  /\ Later.setUrl "/other" opened_builder
     = Abrupt (Error (Later.already_open_message opened_builder)) opened_builder
  /\ Later._url (final_state (Later.setUrl "/other" opened_builder)) = "/"
  /\ Later.openRequest opened_builder
     = Abrupt (Error (Later.already_open_message opened_builder)) opened_builder.
Proof.
  assert (Hret : Later.openRequest sample_builder = Normal this opened_builder)
    by reflexivity.
  destruct (configuration_mutable_iff_closed (host := Recorder.host) sample_builder)
    as (Hclosed & Hopen & _).
  destruct (Hclosed eq_refl) as (Hurl0 & Hasync0 & _).
  destruct (Hopen opened_builder Hret) as (_ & _ & _ & _ & Hurl & _ & Hagain).
  split; [reflexivity|].
  split; [exact (proj2 (Hurl0 "/other"))|].
  split; [exact (proj2 (Hasync0 false))|].
  split; [exact Hret|]. split; [apply Hurl|].
  split; [rewrite Hurl; reflexivity | exact Hagain].
Defined.

(** [sendRequest] on a fresh builder throws and sends nothing. *)
Lemma sendRequest_requires_open_witness :
  Later._isOpen sample_builder = false
  /\ Later.sendRequest (StringBody "q=1") sample_builder
     = Abrupt (Error "XMLHttpRequestPromise: XMLHttpRequest is not open.")
         sample_builder
  /\ Recorder.sent (Later._xhr (final_state
                      (Later.sendRequest (StringBody "q=1") sample_builder))) = [].
Proof.
  split; [reflexivity|].
  destruct (sendRequest_requires_open (host := Recorder.host)
              sample_builder (StringBody "q=1") eq_refl) as [Hthrow Hxhr].
  split; [exact Hthrow|]. rewrite Hxhr. reflexivity.
Defined.

(** A refused [timeout] listener leaves no listener behind. *)
Lemma failed_registration_witness :
  Later.setEventListener "timeout" (Fn 1) IsNull None sample_builder
  = Abrupt (Error "XMLHttpRequestPromise: Event function timeout not implemented.")
      (final_state (Later.setEventListener "timeout" (Fn 1) IsNull None sample_builder))
  /\ final_state (Later.setEventListener "timeout" (Fn 1) IsNull None sample_builder)
     = sample_builder
  /\ Recorder.listener_count
       (Later._xhr (final_state
          (Later.setEventListener "timeout" (Fn 1) IsNull None sample_builder))) = 0.
Proof.
  assert (Hthrow :
    Later.setEventListener "timeout" (Fn 1) IsNull None sample_builder
    = Abrupt (Error "XMLHttpRequestPromise: Event function timeout not implemented.")
        (final_state
           (Later.setEventListener "timeout" (Fn 1) IsNull None sample_builder)))
    by reflexivity.
  destruct (failed_registration_is_atomic (host := Recorder.host)
              sample_builder _ "timeout" (Fn 1) IsNull None _ (or_introl Hthrow))
    as (Hsame & Hxhr & _).
  split; [exact Hthrow|]. split; [exact Hsame|]. rewrite Hxhr. reflexivity.
Defined.

(** A [load] listener without a secondary callback throws on status 404. *)
Lemma null_secondary_witness :
  target_status (load_event (JsNumber 404)) <> JsNumber 200
  /\ exists w : Listener,
      Later.setEventListener "load" (Fn 1) IsNull None sample_builder
      = Normal this
          (Later.with_xhr sample_builder
             (Recorder.addEventListener MainHandle "load" w None
                (Later._xhr sample_builder)))
      /\ w (load_event (JsNumber 404))
         = Raises (TypeError "optionalCallback is not a function").
Proof.
  assert (Hstatus : target_status (load_event (JsNumber 404)) <> JsNumber 200)
    by (simpl; discriminate).
  split; [exact Hstatus|].
  destruct (null_secondary_never_falls_back (host := Recorder.host)
              (Fn 1) IsNull None (load_event (JsNumber 404))
              (or_introl eq_refl) Hstatus) as [Hlater _].
  destruct (Hlater sample_builder) as (w & _ & Hreg & _ & Hraise & _).
  exists w. split; [exact Hreg | exact Hraise].
Defined.

(** [timeout] is refused as not implemented and [click] as invalid. *)
Lemma unsupported_events_witness :
  In "timeout" unimplemented_events
  /\ ~ In "click" mapped_events
  /\ Later.setUploadEventListener "timeout" (Fn 1) IsNull None sample_builder
     = Abrupt (Error "XMLHttpRequestPromise: Event function timeout not implemented.")
         sample_builder
  /\ Later.setEventListener "click" (Fn 1) IsNull None sample_builder
     = Abrupt (Error "XMLHttpRequestPromise: Invalid listener event property click.")
         sample_builder.
Proof.
  assert (Hin : In "timeout" unimplemented_events) by (simpl; tauto).
  assert (Hout : ~ In "click" mapped_events)
    by (simpl; intuition discriminate).
  split; [exact Hin|]. split; [exact Hout|].
  split.
  - exact (proj2 (proj1 (unsupported_events_refused (host := Recorder.host)
                           sample_builder "timeout" (Fn 1) IsNull None) Hin)).
  - exact (proj1 (proj2 (unsupported_events_refused (host := Recorder.host)
                           sample_builder "click" (Fn 1) IsNull None) Hout)).
Defined.

(** * Further properties of the builder *)

(** ** What each call leaves alone *)

Section Frames.

Context {host : Host}.

Lemma exec_frame (op : Later.Op) (b : Later.Builder host) :
  is_setter op = false ->
  Later.configuration (Later.exec op b) = Later.configuration b.
Proof.
  destruct op; simpl; try discriminate; intros _.
  - unfold Later.openRequest. destruct (Later._isOpen b); simpl; auto.
    destruct (xhr_open _ _ _ _) as [[e|] h]; reflexivity.
  - unfold Later.setXhrHeader.
    destruct (xhr_setRequestHeader _ _ _) as [[e|] h]; reflexivity.
  - unfold Later.setEventListener.
    destruct (Later.setEventListener_function _ _ _); reflexivity.
  - unfold Later.setUploadEventListener.
    destruct (Later.setUploadEventListener_function _ _ _); reflexivity.
  - unfold Later.sendRequest, Later.makeRequest.
    destruct (negb (Later._isOpen b)); simpl; auto.
    destruct (xhr_send _ _) as [[e|] h]; reflexivity.
Qed.

Lemma exec_setMethod_cases (m : string) (b : Later.Builder host) :
  Later.exec (Later.OpSetMethod m) b = b
  \/ (In (toUpperCase m) http_verbs
      /\ Later._isOpen b = false
      /\ Later.exec (Later.OpSetMethod m) b = Later.with_method b (toUpperCase m)).
Proof.
  simpl. unfold Later.setMethod. destruct (Later._isOpen b); [left; reflexivity|].
  cbv zeta.
  match goal with |- context [if ?c then _ else _] => destruct c eqn:Hverb end.
  - right. apply verb_switch_iff in Hverb. auto.
  - left. reflexivity.
Qed.

(** X5.  The configuration is written by the three setters only, each writing
    its own field and no other, and the open flag by [openRequest] only:
    [setXhrHeader], the two listener operations and [sendRequest] leave all
    four fields as they were, whether they return or throw. *)
Theorem fields_written_by_their_own_call (op : Later.Op) (b : Later.Builder host) :
  match op with
  | Later.OpSetMethod _ =>
      Later._url (Later.exec op b) = Later._url b
      /\ Later._async (Later.exec op b) = Later._async b
      /\ Later._isOpen (Later.exec op b) = Later._isOpen b
      /\ Later._xhr (Later.exec op b) = Later._xhr b
  | Later.OpSetUrl _ =>
      Later._method (Later.exec op b) = Later._method b
      /\ Later._async (Later.exec op b) = Later._async b
      /\ Later._isOpen (Later.exec op b) = Later._isOpen b
      /\ Later._xhr (Later.exec op b) = Later._xhr b
  | Later.OpSetAsync _ =>
      Later._method (Later.exec op b) = Later._method b
      /\ Later._url (Later.exec op b) = Later._url b
      /\ Later._isOpen (Later.exec op b) = Later._isOpen b
      /\ Later._xhr (Later.exec op b) = Later._xhr b
  | Later.OpOpenRequest =>
      Later.configuration (Later.exec op b) = Later.configuration b
  | _ =>
      Later.configuration (Later.exec op b) = Later.configuration b
      /\ Later._isOpen (Later.exec op b) = Later._isOpen b
  end.
Proof.
  destruct op;
    try (split; [apply exec_frame; reflexivity
                | apply exec_keeps_flag; discriminate]).
  - destruct (exec_setMethod_cases method b) as [-> | (_ & _ & ->)];
      repeat split.
  - simpl. unfold Later.setUrl. destruct (Later._isOpen b) eqn:H; simpl;
      rewrite ?H; repeat split.
  - simpl. unfold Later.setAsync. destruct (Later._isOpen b) eqn:H; simpl;
      rewrite ?H; repeat split.
  - apply exec_frame. reflexivity.
Qed.

Lemma exec_keeps_verb (op : Later.Op) (b : Later.Builder host) :
  In (Later._method b) http_verbs ->
  In (Later._method (Later.exec op b)) http_verbs.
Proof.
  intros Hverb. destruct (is_setter op) eqn:Hsetter.
  - destruct op; try discriminate.
    + destruct (exec_setMethod_cases method b) as [-> | (Hin & _ & ->)];
        [exact Hverb | exact Hin].
    + simpl. unfold Later.setUrl. destruct (Later._isOpen b); exact Hverb.
    + simpl. unfold Later.setAsync. destruct (Later._isOpen b); exact Hverb.
  - pose proof (exec_frame op b Hsetter) as Hcfg.
    unfold Later.configuration in Hcfg. injection Hcfg as Hm _ _.
    rewrite Hm. exact Hverb.
Qed.

Lemma run_keeps_verb (ops : list Later.Op) :
  forall b : Later.Builder host,
    In (Later._method b) http_verbs ->
    In (Later._method (Later.run ops b)) http_verbs.
Proof.
  induction ops as [|op rest IH]; intros b Hverb; simpl.
  - exact Hverb.
  - apply IH. apply exec_keeps_verb. exact Hverb.
Qed.

(** X6.  Whatever calls are made on a new builder, in whatever order, and
    whether they return or throw, its stored method is one of the nine
    verbs: the constructor stores [GET], a refused [setMethod] stores
    nothing, and no other call writes the field. *)
Theorem stored_method_is_a_verb (ops : list Later.Op) :
  In (Later._method (Later.run ops (Later.constructor (host := host)))) http_verbs.
Proof.
  apply run_keeps_verb. simpl. tauto.
Qed.

End Frames.

(** ** Opening and sending *)

Section Lifecycle.

Context {host : Host}.

(** X3.  [openRequest] on a closed builder does what the host's [open] does with
    the configured method, URL and async flag.  When [open] throws, the same
    exception leaves [openRequest], the builder stays closed with its
    configuration, and the setters still work on it; when [open] returns,
    the builder is open. *)
Theorem openRequest_follows_host_open
  (b : Later.Builder host) (outcome : option Exn) (h : Handle) :
  Later._isOpen b = false ->
  xhr_open (Later._method b) (Later._url b) (Later._async b) (Later._xhr b)
  = (outcome, h) ->
  match outcome with
  | Some e =>
      Later.openRequest b = Abrupt e (Later.with_xhr b h)
      /\ Later._isOpen (final_state (Later.openRequest b)) = false
      /\ Later.configuration (final_state (Later.openRequest b))
         = Later.configuration b
      /\ forall u, Later.setUrl u (final_state (Later.openRequest b))
                   = Normal this (Later.with_url (Later.with_xhr b h) u)
  | None =>
      Later.openRequest b = Normal this (Later.with_isOpen (Later.with_xhr b h) true)
      /\ Later._xhr (final_state (Later.openRequest b)) = h
      /\ Later._isOpen (final_state (Later.openRequest b)) = true
      /\ Later.configuration (final_state (Later.openRequest b))
         = Later.configuration b
  end.
Proof.
  intros Hclosed Hhost. unfold Later.openRequest. rewrite Hclosed, Hhost.
  destruct outcome as [e|]; simpl.
  - repeat split; try assumption.
    intros u. unfold Later.setUrl. simpl. rewrite Hclosed. reflexivity.
  - repeat split.
Qed.

Lemma deliver_all_later (ts : list Terminal) :
  forall p, deliver_all Later.onload Later.onerror ts p = later_deliver_all ts p.
Proof.
  induction ts as [|t rest IH]; intros p; simpl; [reflexivity|].
  rewrite IH. destruct t; reflexivity.
Qed.

(** X4.  [sendRequest] throws exactly when the builder is not open.  On an
    open builder it returns a promise and the builder stays open with its
    configuration.  The promise is what the terminal events the host
    delivered before [send] returned made of a pending promise, and if
    [send] threw while it was still pending it is rejected with that
    exception; when the host delivered nothing, as for an asynchronous
    request, it is pending, or rejected with the exception [send] threw. *)
Theorem sendRequest_throws_iff_closed (b : Later.Builder host) (body : Body) :
  ((exists e b', Later.sendRequest body b = Abrupt e b')
   <-> Later._isOpen b = false)
  /\ (Later._isOpen b = true ->
      exists p b',
        Later.sendRequest body b = Normal p b'
        /\ Later._isOpen b' = true
        /\ Later.configuration b' = Later.configuration b
        /\ match fst (xhr_send body
                        (xhr_set_onerror Later.onerror
                           (xhr_set_onload Later.onload (Later._xhr b)))) with
           | Some e =>
               p = executor_throws e
                     (later_deliver_all
                        (xhr_send_delivers body
                           (xhr_set_onerror Later.onerror
                              (xhr_set_onload Later.onload (Later._xhr b))))
                        Pending)
           | None =>
               p = later_deliver_all
                     (xhr_send_delivers body
                        (xhr_set_onerror Later.onerror
                           (xhr_set_onload Later.onload (Later._xhr b))))
                     Pending
           end
        /\ (xhr_send_delivers body
              (xhr_set_onerror Later.onerror
                 (xhr_set_onload Later.onload (Later._xhr b))) = [] ->
            match fst (xhr_send body
                         (xhr_set_onerror Later.onerror
                            (xhr_set_onload Later.onload (Later._xhr b)))) with
            | Some e => p = Rejected (ExnReason e)
            | None => p = Pending
            end)).
Proof.
  unfold Later.sendRequest, Later.makeRequest.
  destruct (Later._isOpen b) eqn:Hopen; simpl.
  - rewrite deliver_all_later.
    destruct (xhr_send _ _) as [[e|] h] eqn:Hsend; simpl.
    + split.
      * split; [intros (e' & b' & H); discriminate | discriminate].
      * intros _. eexists. eexists. split; [reflexivity|].
        simpl. repeat split; [exact Hopen|].
        intros ->. reflexivity.
    + split.
      * split; [intros (e' & b' & H); discriminate | discriminate].
      * intros _. eexists. eexists. split; [reflexivity|].
        simpl. repeat split; [exact Hopen|].
        intros ->. reflexivity.
  - split.
    + split; [reflexivity|]. intros _. eexists. eexists. reflexivity.
    + discriminate.
Qed.

(** X7.  On a closed builder the setters compose as assignments to separate
    fields: two different setters commute, and of two calls of the same
    setter the later one decides ([setMethod] with verbs it accepts). *)
Theorem setters_compose (b : Later.Builder host) (m1 m2 u1 u2 : string) (a1 a2 : bool) :
  Later._isOpen b = false ->
  In (toUpperCase m1) http_verbs ->
  In (toUpperCase m2) http_verbs ->
  Later.setUrl u1 b .> Later.setAsync a1 = Later.setAsync a1 b .> Later.setUrl u1
  /\ Later.setMethod m1 b .> Later.setUrl u1 = Later.setUrl u1 b .> Later.setMethod m1
  /\ Later.setMethod m1 b .> Later.setAsync a1
     = Later.setAsync a1 b .> Later.setMethod m1
  /\ Later.setUrl u1 b .> Later.setUrl u2 = Later.setUrl u2 b
  /\ Later.setAsync a1 b .> Later.setAsync a2 = Later.setAsync a2 b
  /\ Later.setMethod m1 b .> Later.setMethod m2 = Later.setMethod m2 b.
Proof.
  intros Hclosed Hm1 Hm2.
  assert (Hset : forall (b0 : Later.Builder host) m,
             Later._isOpen b0 = false -> In (toUpperCase m) http_verbs ->
             Later.setMethod m b0 = Normal this (Later.with_method b0 (toUpperCase m)))
    by (intros; apply later_setMethod_accepts; assumption).
  rewrite !(Hset b) by assumption.
  unfold Later.setUrl, Later.setAsync. rewrite Hclosed. simpl.
  rewrite !Hset by (simpl; assumption).
  rewrite Hclosed. repeat split.
Qed.

(** X8.  The whole fluent path.  With a verb [setMethod] accepts and a host
    whose [open] and [send] return, the chain constructor, [setMethod],
    [setUrl], [setAsync], [openRequest], [sendRequest] returns a promise and
    an open builder; the host was asked to open with the upper-case verb,
    the URL and the async flag given, then received [onload], [onerror] and
    the body, in that order.  The promise is what the terminal events
    delivered before [send] returned made of a pending promise: pending when
    there were none, as for an asynchronous request. *)
Theorem fluent_request_flow (m u : string) (a : bool) (body : Body) (h1 h2 : Handle) :
  In (toUpperCase m) http_verbs ->
  xhr_open (toUpperCase m) u a XMLHttpRequest_new = (None, h1) ->
  xhr_send body (xhr_set_onerror Later.onerror (xhr_set_onload Later.onload h1))
  = (None, h2) ->
  Later.setMethod m Later.constructor
    .> Later.setUrl u
    .> Later.setAsync a
    .> Later.openRequest
    .> Later.sendRequest body
  = Normal
      (later_deliver_all
         (xhr_send_delivers body
            (xhr_set_onerror Later.onerror (xhr_set_onload Later.onload h1)))
         Pending)
      {| Later._xhr := h2;
         Later._method := toUpperCase m;
         Later._url := u;
         Later._async := a;
         Later._isOpen := true |}
  /\ (xhr_send_delivers body
        (xhr_set_onerror Later.onerror (xhr_set_onload Later.onload h1)) = [] ->
      Later.setMethod m Later.constructor
        .> Later.setUrl u
        .> Later.setAsync a
        .> Later.openRequest
        .> Later.sendRequest body
      = Normal Pending
          {| Later._xhr := h2;
             Later._method := toUpperCase m;
             Later._url := u;
             Later._async := a;
             Later._isOpen := true |}).
Proof.
  intros Hverb Hopen Hsend.
  rewrite (later_setMethod_accepts Later.constructor m eq_refl Hverb). simpl.
  unfold Later.openRequest. simpl. rewrite Hopen. simpl.
  unfold Later.sendRequest, Later.makeRequest. simpl. rewrite Hsend.
  rewrite deliver_all_later. split; [reflexivity|].
  intros ->. reflexivity.
Qed.

End Lifecycle.

(** ** The promise under several terminal events *)

Lemma settled_promise_stays (ts : list Terminal) :
  forall p, p <> Pending -> later_deliver_all ts p = p.
Proof.
  induction ts as [|t rest IH]; intros p Hsettled; simpl.
  - reflexivity.
  - assert (Hsame : later_deliver t p = p).
    { destruct p; [congruence | |]; destruct t; reflexivity. }
    rewrite Hsame. apply IH. exact Hsettled.
Qed.

Lemma later_deliver_settles (t : Terminal) :
  later_deliver t Pending <> Pending.
Proof.
  destruct t as [view|view]; simpl; unfold Later.onload, Later.onerror.
  - destruct (N.leb 200 (xhr_status view) && N.ltb (xhr_status view) 300);
      simpl; discriminate.
  - simpl. discriminate.
Qed.

(** X2.  Neither handler of the later variant throws or returns without
    settling: the first terminal event settles the pending promise,
    fulfilling it with the response or rejecting it with the status and
    status text the handle shows then, and every terminal event after it
    leaves the promise as the first one left it.  A transport error never
    fulfils. *)
Theorem promise_settled_by_first_event (t : Terminal) (rest : list Terminal) :
  later_deliver_all (t :: rest) Pending = later_deliver t Pending
  /\ match t with
     | LoadCompleted view =>
         later_deliver t Pending = Fulfilled (xhr_response view)
         \/ later_deliver t Pending
            = Rejected (StatusReason {| status := JsNumber (xhr_status view);
                                        statusText := xhr_statusText view |})
     | TransportError view =>
         later_deliver t Pending
         = Rejected (StatusReason {| status := JsNumber (xhr_status view);
                                     statusText := xhr_statusText view |})
     end.
Proof.
  split.
  - simpl. apply settled_promise_stays. apply later_deliver_settles.
  - destruct t as [view|view]; simpl; unfold Later.onload, Later.onerror.
    + destruct (N.leb 200 (xhr_status view) && N.ltb (xhr_status view) 300);
        simpl; auto.
    + reflexivity.
Qed.

(** ** More on the listener wrappers *)

Lemma percent_of_part (l t : N) :
  (0 < t)%N -> (l <= t)%N ->
  (l * 100 / t <= 100)%N /\ (l * 100 / t = 100 <-> l = t)%N.
Proof.
  intros Ht Hle.
  assert (Hne : t <> 0%N) by lia.
  pose proof (N.div_mod (l * 100) t Hne) as Hdm.
  pose proof (N.mod_lt (l * 100) t Hne) as Hlt.
  set (q := (l * 100 / t)%N) in *. set (r := ((l * 100) mod t)%N) in *.
  clearbody q r.
  split; [nia|]. split; intros H; nia.
Qed.

Section Wrappers.

Context {host : Host}.

(** X9.  For a computable length with a non-zero total, no more loaded than
    the total, and [total * 100] in the exact range of a double, the
    [progress] wrapper of either listener operation passes a whole
    percentage between 0 and 100, and passes 100 exactly when all of the
    total is loaded. *)
Theorem progress_percent_bounded
  (b : Later.Builder host) (cb : Callback) (ocb : OptionalCallback)
  (opts : option bool) (evt : Event) :
  lengthComputable evt = true ->
  (0 < total evt)%N ->
  (loaded evt <= total evt)%N ->
  double_exact (total evt * 100) ->
  exists (w w' : Listener) (p : N),
    Later.setEventListener "progress" cb ocb opts b
    = Normal this
        (Later.with_xhr b
           (xhr_addEventListener MainHandle "progress" w opts (Later._xhr b)))
    /\ Later.setUploadEventListener "progress" cb ocb opts b
       = Normal this
           (Later.with_xhr b
              (xhr_addEventListener UploadHandle "progress" w' opts (Later._xhr b)))
    /\ w evt = Calls cb [ANumber (Finite p); AEvent evt]
    /\ w' evt = Calls cb [ANumber (Finite p); AEvent evt]
    /\ (p <= 100)%N
    /\ (p = 100 <-> loaded evt = total evt)%N.
Proof.
  intros Hcomputable Htotal Hpart Hexact.
  destruct (percent_of_part _ _ Htotal Hpart) as [Hle Hfull].
  assert (Hl : double_exact (loaded evt * 100))
    by (unfold double_exact in *; lia).
  assert (Ht : double_exact (total evt))
    by (unfold double_exact in *; lia).
  destruct (js_percent_exact (loaded evt) (total evt) Htotal Hl Ht) as [Hdiv _].
  eexists. eexists. exists (loaded evt * 100 / total evt)%N.
  split; [reflexivity|]. split; [reflexivity|].
  cbv beta zeta. rewrite Hcomputable, Hdiv.
  split; [reflexivity|]. split; [reflexivity|]. split; assumption.
Qed.

(** X10.  An [abort] or [error] listener, on either handle, passes the event to
    the primary callback whatever the event holds and whatever the secondary
    callback is, a null one included: the secondary callback is never
    called for these events. *)
Theorem abort_error_listeners_forward
  (b : Later.Builder host) (event : string)
  (cb : Callback) (ocb : OptionalCallback) (opts : option bool) :
  event = "abort" \/ event = "error" ->
  exists w w' : Listener,
    Later.setEventListener event cb ocb opts b
    = Normal this
        (Later.with_xhr b (xhr_addEventListener MainHandle event w opts (Later._xhr b)))
    /\ Later.setUploadEventListener event cb ocb opts b
       = Normal this
           (Later.with_xhr b
              (xhr_addEventListener UploadHandle event w' opts (Later._xhr b)))
    /\ forall evt : Event,
         w evt = Calls cb [AEvent evt] /\ w' evt = Calls cb [AEvent evt].
Proof.
  intros [-> | ->]; eexists; eexists;
    (split; [reflexivity|]); (split; [reflexivity|]);
    intros evt; split; reflexivity.
Qed.

(** X11.  For the four supported events the two variants attach the same wrapper:
    what a listener does when the host invokes it does not depend on the
    variant that registered it. *)
Theorem variants_attach_same_wrapper
  (bl : Later.Builder host) (be : Earlier.Builder host) (event : string)
  (cb : Callback) (ocb : OptionalCallback) (opts : option bool) :
  In event supported_events ->
  exists w w' : Listener,
    Later.setEventListener event cb ocb opts bl
    = Normal this
        (Later.with_xhr bl
           (xhr_addEventListener MainHandle event w opts (Later._xhr bl)))
    /\ Earlier.setEventListener event cb ocb opts be
       = Normal this
           (Earlier.with_xhr be
              (xhr_addEventListener MainHandle event w opts (Earlier._xhr be)))
    /\ Later.setUploadEventListener event cb ocb opts bl
       = Normal this
           (Later.with_xhr bl
              (xhr_addEventListener UploadHandle event w' opts (Later._xhr bl)))
    /\ Earlier.setUploadEventListener event cb ocb opts be
       = Normal this
           (Earlier.with_xhr be
              (xhr_addEventListener UploadHandle event w' opts (Earlier._xhr be))).
Proof.
  unfold supported_events. simpl.
  intros [<-|[<-|[<-|[<-|[]]]]]; eexists; eexists; repeat split.
Qed.

(** X12.  The earlier variant refuses the same event names as the later one, in
    both listener operations and leaving the builder as it was, with two
    fixed messages: one for the four events that are not implemented and one
    for every name outside the mapped set. *)
Theorem earlier_unsupported_events_refused
  (b : Earlier.Builder host) (event : string)
  (cb : Callback) (ocb : OptionalCallback) (opts : option bool) :
  (In event unimplemented_events ->
   Earlier.setEventListener event cb ocb opts b
   = Abrupt (Error "Event function not implemented.") b
   /\ Earlier.setUploadEventListener event cb ocb opts b
      = Abrupt (Error "Event function not implemented.") b)
  /\ (~ In event mapped_events ->
      Earlier.setEventListener event cb ocb opts b
      = Abrupt (Error "Invalid listener event property.") b
      /\ Earlier.setUploadEventListener event cb ocb opts b
         = Abrupt (Error "Invalid listener event property.") b).
Proof.
  unfold Earlier.setEventListener, Earlier.setUploadEventListener. split.
  - unfold unimplemented_events. simpl.
    intros [<-|[<-|[<-|[<-|[]]]]]; split; reflexivity.
  - unfold mapped_events. simpl. intros Hout.
    unfold Earlier.setEventListener_function, Earlier.setUploadEventListener_function.
    switch_on event; try solve [exfalso; intuition congruence].
    split; reflexivity.
Qed.

(** X13.  [build] never throws.  It asks the host to open the handle with the
    stored method and URL, always asynchronously; when [open] throws, the
    promise is rejected with that exception and the handle is left as [open]
    left it, with no handler installed and nothing sent; otherwise the
    promise is pending or rejected with the exception [send] threw.  The
    stored method and URL are unchanged. *)
Theorem build_never_throws (b : Earlier.Builder host) (body : Body) :
  exists p b',
    Earlier.build body b = Normal p b'
    /\ Earlier._method b' = Earlier._method b
    /\ Earlier._url b' = Earlier._url b
    /\ match xhr_open (Earlier._method b) (Earlier._url b) true (Earlier._xhr b) with
       | (Some e, h) => p = Rejected (ExnReason e) /\ Earlier._xhr b' = h
       | (None, h) =>
           match fst (xhr_send body
                        (xhr_set_onerror (Earlier.onerror Earlier.ThisUndefined)
                           (xhr_set_onload (Earlier.onload Earlier.ThisUndefined) h)))
           with
           | Some e => p = Rejected (ExnReason e)
           | None => p = Pending
           end
       end.
Proof.
  unfold Earlier.build, Earlier.makeRequest.
  destruct (xhr_open _ _ _ _) as [[e|] h]; simpl.
  - eexists. eexists. repeat split.
  - destruct (xhr_send _ _) as [[e|] h'] eqn:Hsend; simpl;
      eexists; eexists; repeat split.
Qed.

End Wrappers.

(** ** The further properties at concrete requests *)

(** An opened builder's handlers at status 204 and 500. *)
Lemma sendRequest_settles_witness :
  Later._isOpen opened_builder = true
  /\ is_2xx (xhr_status view_204)
  /\ ~ is_2xx (xhr_status view_500)
  /\ settle (Later.onload view_204) Pending = Fulfilled ""
  /\ settle (Later.onload view_500) Pending
     = Rejected (StatusReason {| status := JsNumber 500;
                                 statusText := "Internal Server Error" |}).
Proof.
  assert (H204 : is_2xx (xhr_status view_204)) by (unfold is_2xx; simpl; lia).
  assert (H500 : ~ is_2xx (xhr_status view_500)) by (unfold is_2xx; simpl; lia).
  destruct (sendRequest_settles_by_status (host := Recorder.host)
              opened_builder (StringBody "q=1") eq_refl) as [_ Hsettle].
  split; [reflexivity|]. split; [exact H204|]. split; [exact H500|].
  split.
  - exact (proj1 (Hsettle view_204) H204).
  - exact (proj1 (proj2 (Hsettle view_500)) H500).
Defined.

(** A builder set to CONNECT stays closed when the host refuses to open. *)
Lemma openRequest_follows_host_open_witness :
  Later.openRequest (Later.with_method sample_builder "CONNECT")
  = Abrupt (HostException "SecurityError")
      (Later.with_xhr (Later.with_method sample_builder "CONNECT") Recorder.fresh)
  /\ Later._isOpen
       (final_state (Later.openRequest (Later.with_method sample_builder "CONNECT")))
     = false.
Proof.
  destruct (openRequest_follows_host_open (host := Recorder.host)
              (Later.with_method sample_builder "CONNECT")
              (Some (HostException "SecurityError")) Recorder.fresh
              eq_refl eq_refl) as (Hthrow & Hclosed & _).
  split; [exact Hthrow | exact Hclosed].
Defined.

(** Setting the URL and the method in either order gives the same builder. *)
Lemma setters_compose_witness :
  Later.setMethod "post" sample_builder .> Later.setUrl "/api"
  = Later.setUrl "/api" sample_builder .> Later.setMethod "post"
  /\ Later.setMethod "post" sample_builder .> Later.setMethod "put"
     = Later.setMethod "put" sample_builder.
Proof.
  assert (Hpost : In (Recorder.ascii_toUpperCase "post") http_verbs)
    by (simpl; tauto).
  assert (Hput : In (Recorder.ascii_toUpperCase "put") http_verbs)
    by (simpl; tauto).
  destruct (setters_compose (host := Recorder.host) sample_builder
              "post" "put" "/api" "/other" true false eq_refl Hpost Hput)
    as (_ & Hswap & _ & _ & _ & Hlast).
  split; [exact Hswap | exact Hlast].
Defined.

(** The fluent path on the recording host: an asynchronous request
    returns a pending promise, a synchronous one a promise the response
    delivered inside [send] has fulfilled. *)
Lemma fluent_request_flow_witness :
  Later.setMethod "post" sample_builder
    .> Later.setUrl "/api"
    .> Later.setAsync true
    .> Later.openRequest
    .> Later.sendRequest (ObjectBody "a=1")
  = Normal Pending
      (@Later.mkBuilder Recorder.host
         (snd (Recorder.send (ObjectBody "a=1")
                 (Recorder.set_onerror Later.onerror
                    (Recorder.set_onload Later.onload
                       (snd (Recorder.open "POST" "/api" true Recorder.fresh))))))
         "POST" "/api" true true)
  /\ Later.setMethod "post" sample_builder
       .> Later.setUrl "/api"
       .> Later.setAsync false
       .> Later.openRequest
       .> Later.sendRequest (ObjectBody "a=1")
     = Normal (Fulfilled "sync")
         (@Later.mkBuilder Recorder.host
            (snd (Recorder.send (ObjectBody "a=1")
                    (Recorder.set_onerror Later.onerror
                       (Recorder.set_onload Later.onload
                          (snd (Recorder.open "POST" "/api" false Recorder.fresh))))))
            "POST" "/api" false true).
Proof.
  assert (Hpost : In (Recorder.ascii_toUpperCase "post") http_verbs)
    by (simpl; tauto).
  pose (opened_with := fun a : bool =>
          snd (Recorder.open "POST" "/api" a Recorder.fresh) : @Handle Recorder.host).
  pose (sent_with := fun a : bool =>
          snd (Recorder.send (ObjectBody "a=1")
                 (Recorder.set_onerror Later.onerror
                    (Recorder.set_onload Later.onload (opened_with a))))
          : @Handle Recorder.host).
  split.
  - exact (proj2 (fluent_request_flow (host := Recorder.host)
                    "post" "/api" true (ObjectBody "a=1")
                    (opened_with true) (sent_with true) Hpost eq_refl eq_refl)
             eq_refl).
  - exact (proj1 (fluent_request_flow (host := Recorder.host)
                    "post" "/api" false (ObjectBody "a=1")
                    (opened_with false) (sent_with false) Hpost eq_refl eq_refl)).
Defined.

(** 50 of 200 loaded is passed as 25. *)
Lemma progress_percent_witness :
  exists (w : Listener) (p : N),
    Later.setEventListener "progress" (Fn 1) IsNull None sample_builder
    = Normal this
        (Later.with_xhr sample_builder
           (Recorder.addEventListener MainHandle "progress" w None
              (Later._xhr sample_builder)))
    /\ w (progress_event true 50 200)
       = Calls (Fn 1) [ANumber (Finite p); AEvent (progress_event true 50 200)]
    /\ (p <= 100)%N.
Proof.
  assert (Htotal : (0 < total (progress_event true 50 200))%N) by (simpl; lia).
  assert (Hpart : (loaded (progress_event true 50 200)
                   <= total (progress_event true 50 200))%N) by (simpl; lia).
  assert (Hexact : double_exact (total (progress_event true 50 200) * 100))
    by (unfold double_exact; simpl; lia).
  destruct (progress_percent_bounded (host := Recorder.host)
              sample_builder (Fn 1) IsNull None (progress_event true 50 200)
              eq_refl Htotal Hpart Hexact)
    as (w & w' & p & Hreg & _ & Hcall & _ & Hle & _).
  exists w, p. split; [exact Hreg|]. split; [exact Hcall | exact Hle].
Defined.

(** An [abort] listener with a null secondary callback calls the primary. *)
Lemma abort_listener_witness :
  exists w : Listener,
    Later.setEventListener "abort" (Fn 1) IsNull None sample_builder
    = Normal this
        (Later.with_xhr sample_builder
           (Recorder.addEventListener MainHandle "abort" w None
              (Later._xhr sample_builder)))
    /\ w (load_event (JsNumber 0)) = Calls (Fn 1) [AEvent (load_event (JsNumber 0))].
Proof.
  destruct (abort_error_listeners_forward (host := Recorder.host)
              sample_builder "abort" (Fn 1) IsNull None (or_introl eq_refl))
    as (w & w' & Hreg & _ & Hcall).
  exists w. split; [exact Hreg | exact (proj1 (Hcall (load_event (JsNumber 0))))].
Defined.

(** Both variants attach the same [load] wrapper. *)
Lemma variants_attach_same_wrapper_witness :
  exists w : Listener,
    Later.setEventListener "load" (Fn 1) (IsFunction (Fn 2)) None sample_builder
    = Normal this
        (Later.with_xhr sample_builder
           (Recorder.addEventListener MainHandle "load" w None
              (Later._xhr sample_builder)))
    /\ Earlier.setEventListener "load" (Fn 1) (IsFunction (Fn 2)) None earlier_builder
       = Normal this
           (Earlier.with_xhr earlier_builder
              (Recorder.addEventListener MainHandle "load" w None
                 (Earlier._xhr earlier_builder))).
Proof.
  assert (Hin : In "load" supported_events) by (simpl; tauto).
  destruct (variants_attach_same_wrapper (host := Recorder.host)
              sample_builder earlier_builder "load" (Fn 1) (IsFunction (Fn 2)) None Hin)
    as (w & w' & Hlater & Hearlier & _).
  exists w. split; [exact Hlater | exact Hearlier].
Defined.

(** 50 of 200 loaded is passed as 25, the integer floor. *)
Lemma progress_listener_percent_witness :
  exists w : Listener,
    Later.setEventListener "progress" (Fn 1) IsNull None sample_builder
    = Normal this
        (Later.with_xhr sample_builder
           (Recorder.addEventListener MainHandle "progress" w None
              (Later._xhr sample_builder)))
    /\ w (progress_event true 50 200)
       = Calls (Fn 1) [ANumber (Finite 25); AEvent (progress_event true 50 200)]
    /\ w (progress_event false 50 200)
       = Calls (Fn 1) [ANumber (Finite 0); AEvent (progress_event false 50 200)].
Proof.
  destruct (progress_listener_percent (host := Recorder.host)
              sample_builder (Fn 1) IsNull None) as (w & w' & Hreg & _ & Hw).
  exists w. split; [exact Hreg|]. split.
  - destruct (Hw (progress_event true 50 200)) as (_ & _ & Htrue).
    destruct (Htrue eq_refl) as [_ Hexact].
    assert (Hpos : (0 < total (progress_event true 50 200))%N) by (simpl; lia).
    assert (Hl : double_exact (loaded (progress_event true 50 200) * 100))
      by (unfold double_exact; simpl; lia).
    assert (Ht : double_exact (total (progress_event true 50 200)))
      by (unfold double_exact; simpl; lia).
    exact (proj1 (Hexact Hpos Hl Ht)).
  - destruct (Hw (progress_event false 50 200)) as (_ & Hfalse & _).
    exact (Hfalse eq_refl).
Defined.

(** C5 as first stated fails for a large transfer.  With
    [loaded = total = 472358662431197] and a computable length the integer
    floor of [loaded * 100 / total] is 100, but [loaded * 100] is not a
    double: the product is rounded, the quotient falls below 100, and the
    wrapper passes 99. *)
Lemma progress_percent_counterexample :
  exists w : Listener,
    Later.setEventListener "progress" (Fn 1) IsNull None sample_builder
    = Normal this
        (Later.with_xhr sample_builder
           (Recorder.addEventListener MainHandle "progress" w None
              (Later._xhr sample_builder)))
    /\ lengthComputable finished_large_transfer = true
    /\ (loaded finished_large_transfer * 100 / total finished_large_transfer = 100)%N
    /\ w finished_large_transfer
       = Calls (Fn 1) [ANumber (Finite 99); AEvent finished_large_transfer].
Proof.
  eexists. split; [reflexivity|].
  split; [reflexivity|]. split; [reflexivity|].
  vm_compute. reflexivity.
Qed.
